(** * The automated trading engine of TmAiBotTraining

    A shallow embedding of [server/services/trading-bot.ts] (class
    [TradingBot]) and of the news gate of [server/services/news-service.ts]
    (class [NewsService]), with the properties of the engine's design
    document stated and settled against it.

    Conventions of the embedding.
    - A JavaScript [number] that carries a price, a balance, a confidence or
      a volume is an exact rational ([Q]): the rounding of the binary64
      format is not modelled.  [0 / 0], which JavaScript evaluates to [NaN],
      arises in [calculateSMA] on an empty slice; there the result is an
      [option Q] whose [None] is [NaN], and every comparison with it is
      false, as in JavaScript.  The two other divisions, by the period in
      [calculateRSI] and by the stop distance in [executeSignal], are exact
      for a divisor other than zero; the theorems that depend on their
      value assume a positive divisor.
    - Wall-clock readings ([Date.now()]) and window lengths are integers ([Z]).
    - A [Map] is a [gmap]; an array is a [list], oldest element first.
    - An [async] method that may reject is a computation in a state and
      exception monad over the bot object; what a collaborator (gateway,
      storage, clock) answers is an input of the computation.  One tick runs
      to its end before the next one starts. *)

From Stdlib Require Import QArith Qround Qabs Qminmax ZArith Lia Lqa.
From stdpp Require Import gmap strings list.

(** ** JavaScript numbers *)

Module Num.

Definition ltb (x y : Q) : bool := negb (Qle_bool y x).
Definition leb (x y : Q) : bool := Qle_bool x y.
Definition eqb (x y : Q) : bool := Qeq_bool x y.

(** [Math.round]: the nearest integer, a tie going up. *)
Definition Math_round (x : Q) : Z := Qfloor (x + (1 # 2))%Q.

Definition Math_min (x y : Q) : Q := if ltb y x then y else x.

Definition Math_abs (x : Q) : Q := Qabs x.

(** Truthiness of an optional numeric field: [undefined] and [0] are
    falsy. *)
Definition truthy (x : option Q) : bool :=
  match x with
  | Some v => negb (eqb v 0)
  | None => false
  end.

(** Comparisons of numbers that may be [NaN] ([None]). *)
Definition nan_leb (a b : option Q) : bool :=
  match a, b with
  | Some x, Some y => leb x y
  | _, _ => false
  end.

Definition nan_ltb (a b : option Q) : bool :=
  match a, b with
  | Some x, Some y => ltb x y
  | _, _ => false
  end.

End Num.

(** ** Indicator library *)

Module Indicators.
Import Num.

(** [arr.slice(-period)]: the last [period] elements when [period] is
    positive (all of them when there are fewer); for [period <= 0] the
    start index [-period] is counted from the front, so [slice(-0)] is the
    whole array. *)
Definition slice_last {A} (arr : list A) (period : Z) : list A :=
  if (0 <? period)%Z
  then drop (Z.to_nat (Z.of_nat (length arr) - period)) arr
  else drop (Z.to_nat (- period)) arr.

(** [arr.slice(0, -1)]: all but the last element. *)
Definition slice_init {A} (arr : list A) : list A :=
  take (length arr - 1) arr.

(** [arr.reduce((sum, x) => sum + x, 0)] *)
Definition sum (arr : list Q) : Q :=
  fold_left (fun acc x => (acc + x)%Q) arr 0%Q.

(** The sum and the quotient are exact here.  In binary64 every addition
    and the division round, so that the average of equal prices may differ
    from the price in the last place: what is proved of the averages is how
    they depend on the window and how the signal depends on them, not where
    their value lies. *)
Definition calculateSMA (prices : list Q) (period : Z) : option Q :=
  let slice := slice_last prices period in
  match slice with
  | [] => None
  | _ => Some (sum slice / inject_Z (Z.of_nat (length slice)))%Q
  end.

(** The loop of [calculateRSI] over [i = 1 .. length - 1]: the change
    from each price to the next. *)
Fixpoint changes (prices : list Q) : list Q :=
  match prices with
  | prev :: (cur :: _) as rest => (cur - prev)%Q :: changes rest
  | _ => []
  end.

Definition gainOf (change : Q) : Q := if ltb 0 change then change else 0%Q.
Definition lossOf (change : Q) : Q :=
  if ltb change 0 then Math_abs change else 0%Q.

Definition avgGain (prices : list Q) (period : Z) : Q :=
  (sum (slice_last (map gainOf (changes prices)) period) / inject_Z period)%Q.

Definition avgLoss (prices : list Q) (period : Z) : Q :=
  (sum (slice_last (map lossOf (changes prices)) period) / inject_Z period)%Q.

(** The division by [period] is exact for [period <> 0]; the theorems on
    the index assume a positive period. *)
Definition calculateRSI (prices : list Q) (period : Z) : Q :=
  if (Z.of_nat (length prices) <? period + 1)%Z then 50%Q
  else
    if eqb (avgLoss prices period) 0 then 100%Q
    else
      let rs := (avgGain prices period / avgLoss prices period)%Q in
      (100 - 100 / (1 + rs))%Q.

End Indicators.


(** ** Data model *)

Module Data.

Inductive Action := BUY | SELL | CLOSE.

(** The [reason] text of a signal.  The source renders the index of the
    RSI signals into the text with [toFixed(2)]; the model keeps the
    number. *)
Inductive Reason :=
| MABullishCrossover
| MABearishCrossover
| RSIOversold (rsi : Q)
| RSIOverbought (rsi : Q).

Record TradingSignal := {
  symbol : string;
  action : Action;
  confidence : Q;
  reason : Reason;
  stopLoss : option Q;
  takeProfit : option Q
}.

Record StrategyParams := {
  fastMA : Z;
  slowMA : Z;
  rsiPeriod : Z;
  rsiOverbought : Q;
  rsiOversold : Q
}.

(** The row of table [bot_settings] (shared/schema.ts) as the engine reads
    it.  [riskPerTrade] is a decimal column that the engine reads through
    [parseFloat]: the model holds its numeric value.  [strategyParams] is
    [None] when the column holds no object. *)
Record BotSettings := {
  strategy : string;
  riskPerTrade : Q;
  tradingSymbols : list string;
  newsAvoidanceMinutes : Z;
  strategyParams : option StrategyParams
}.

Record MT5AccountInfo := { balance : Q; equity : Q }.

Record MT5PriceData := { bid : Q; ask : Q }.

Inductive OrderType := ORDER_TYPE_BUY | ORDER_TYPE_SELL.

Record MT5TradeRequest := {
  req_symbol : string;
  req_volume : Q;
  req_type : OrderType;
  req_deviation : Z;
  req_sl : option Q;
  req_tp : option Q;
  req_comment : Reason;
  req_magic : Z
}.

Record OrderResult := { ticket : string; res_volume : Q; res_price : Q }.

Record InsertTrade := {
  trade_accountId : string;
  trade_ticket : string;
  trade_symbol : string;
  trade_type : Action;
  trade_volume : Q;
  trade_entryPrice : Q;
  trade_stopLoss : option Q;
  trade_takeProfit : option Q;
  trade_comment : Reason;
  trade_isManual : bool
}.

Record NewsEvent := { impact : string; currency : string }.

Definition Error := string.

(** What the bot emits through its [EventEmitter]. *)
Inductive Event :=
| statusChanged (status : string)
| errorEvent (e : Error)
| newsPause (sym : string) (why : string)
| tradeExecuted (signal : TradingSignal) (result : OrderResult).

(** A request issued to a collaborator: the storage, the news calendar
    behind it, or the MT5 gateway. *)
Inductive Request :=
| GetBotSettings (account : string)
| GetConnectionStatus
| GetUpcomingNews (hours : Q)
| GetSymbolInfo (sym : string)
| GetAccountInfo
| SendOrder (request : MT5TradeRequest)
| CreateTrade (trade : InsertTrade).

Inductive Output :=
| Emit (e : Event)
| Call (r : Request).

(** The fields of class [TradingBot].  [updateInterval] tells whether the
    10-second timer is armed.  [log] is not a field of the class: it keeps,
    oldest first, what the object has emitted and requested so far. *)
Record TradingBot := {
  accountId : string;
  isRunning : bool;
  settings : option BotSettings;
  priceHistory : gmap string (list Q);
  lastSignalTime : gmap string Z;
  updateInterval : bool;
  log : list Output
}.

Definition minSignalInterval : Z := 5 * 60 * 1000.

(** [new TradingBot(accountId)] *)
Definition createTradingBot (account : string) : TradingBot :=
  {| accountId := account; isRunning := false; settings := None;
     priceHistory := ∅; lastSignalTime := ∅; updateInterval := false;
     log := [] |}.

Definition set_isRunning (b : bool) (bot : TradingBot) : TradingBot :=
  {| accountId := accountId bot; isRunning := b; settings := settings bot;
     priceHistory := priceHistory bot; lastSignalTime := lastSignalTime bot;
     updateInterval := updateInterval bot; log := log bot |}.

Definition set_settings (s : option BotSettings) (bot : TradingBot) : TradingBot :=
  {| accountId := accountId bot; isRunning := isRunning bot; settings := s;
     priceHistory := priceHistory bot; lastSignalTime := lastSignalTime bot;
     updateInterval := updateInterval bot; log := log bot |}.

Definition set_priceHistory (h : gmap string (list Q)) (bot : TradingBot) : TradingBot :=
  {| accountId := accountId bot; isRunning := isRunning bot;
     settings := settings bot; priceHistory := h;
     lastSignalTime := lastSignalTime bot;
     updateInterval := updateInterval bot; log := log bot |}.

Definition set_lastSignalTime (t : gmap string Z) (bot : TradingBot) : TradingBot :=
  {| accountId := accountId bot; isRunning := isRunning bot;
     settings := settings bot; priceHistory := priceHistory bot;
     lastSignalTime := t; updateInterval := updateInterval bot;
     log := log bot |}.

Definition set_updateInterval (b : bool) (bot : TradingBot) : TradingBot :=
  {| accountId := accountId bot; isRunning := isRunning bot;
     settings := settings bot; priceHistory := priceHistory bot;
     lastSignalTime := lastSignalTime bot; updateInterval := b;
     log := log bot |}.

Definition record (o : Output) (bot : TradingBot) : TradingBot :=
  {| accountId := accountId bot; isRunning := isRunning bot;
     settings := settings bot; priceHistory := priceHistory bot;
     lastSignalTime := lastSignalTime bot;
     updateInterval := updateInterval bot; log := log bot ++ [o] |}.

End Data.

(** ** Asynchronous methods: state of the bot and rejection *)

Module Async.
Import Data.

Inductive Result (A : Type) :=
| Ok (a : A)
| Throw (e : Error).
Arguments Ok {A} a.
Arguments Throw {A} e.

Definition M (A : Type) : Type := TradingBot -> Result A * TradingBot.

Definition ret {A} (a : A) : M A := fun bot => (Ok a, bot).

Definition bind {A B} (c : M A) (k : A -> M B) : M B :=
  fun bot =>
    match c bot with
    | (Ok a, bot') => k a bot'
    | (Throw e, bot') => (Throw e, bot')
    end.

Definition throw {A} (e : Error) : M A := fun bot => (Throw e, bot).

(** [try { body } catch (error) { handler }]: what [body] did to the
    object before it threw stays done. *)
Definition try_catch {A} (body : M A) (handler : Error -> M A) : M A :=
  fun bot =>
    match body bot with
    | (Ok a, bot') => (Ok a, bot')
    | (Throw e, bot') => handler e bot'
    end.

Definition this : M TradingBot := fun bot => (Ok bot, bot).

Definition update (f : TradingBot -> TradingBot) : M unit :=
  fun bot => (Ok tt, f bot).

(** [this.emit(...)] *)
Definition emit (e : Event) : M unit := update (record (Emit e)).

(** [await collaborator.request(...)], the collaborator answering
    [reply]. *)
Definition await {A} (r : Request) (reply : Result A) : M A :=
  fun bot => (reply, record (Call r) bot).

(** The object after the computation has run. *)
Definition exec {A} (c : M A) (bot : TradingBot) : TradingBot := snd (c bot).

End Async.

Notation "'let*' x := c 'in' k" := (Async.bind c (fun x => k))
  (at level 10, x name, c at level 100, k at level 200).
Notation "c ;; k" := (Async.bind c (fun _ => k))
  (at level 100, k at level 200, right associativity).

(** ** The news gate (class [NewsService]) *)

Module NewsService.
Import Data Async.

Definition extractCurrenciesFromSymbol (symbol : string) : list string :=
  if (6 <=? String.length symbol)%nat
  then [String.substring 0 3 symbol; String.substring 3 3 symbol]
  else [].

(** [currencies.includes(c)] *)
Definition includes (currencies : list string) (c : string) : bool :=
  existsb (String.eqb c) currencies.

(** [reply] is what [storage.getUpcomingNews] answers. *)
Definition shouldPauseTradingForNews (symbol : string) (minutesAhead : Z)
    (reply : Result (list NewsEvent)) : M bool :=
  try_catch
    (let currencies := extractCurrenciesFromSymbol symbol in
     let* events :=
       await (GetUpcomingNews (inject_Z minutesAhead / 60)%Q) reply in
     ret (existsb
            (fun event =>
               String.eqb (impact event) "high"
               && includes currencies (currency event))
            events))
    (fun _ => ret false).

End NewsService.

(** ** The engine (class [TradingBot]) *)

Module Engine.
Import Num Indicators Data Async NewsService.

(** What the collaborators answer during one call of [start]. *)
Record StartIO := {
  botSettingsReply : Result (option BotSettings);
  connectionStatus : bool
}.

(** What the collaborators answer during one call of [executeSignal];
    [doneAt] is the reading of [Date.now()] that is stored as the time of
    the last signal. *)
Record ExecuteIO := {
  accountInfoReply : Result MT5AccountInfo;
  symbolInfoReply : Result MT5PriceData;
  sendOrderReply : Result OrderResult;
  createTradeReply : Result unit;
  doneAt : Z
}.

(** What the collaborators answer while one symbol of a tick is
    evaluated; [checkedAt] is the reading of [Date.now()] in
    [shouldExecuteSignal]. *)
Record SymbolIO := {
  upcomingNewsReply : Result (list NewsEvent);
  priceReply : Result MT5PriceData;
  checkedAt : Z;
  executeIO : ExecuteIO
}.

Definition start (io : StartIO) : M bool :=
  try_catch
    (let* bot := this in
     let* found :=
       await (GetBotSettings (accountId bot)) (botSettingsReply io) in
     update (set_settings found) ;;
     match found with
     | None => throw "Bot settings not found"
     | Some _ =>
         let* connected :=
           await GetConnectionStatus (Ok (connectionStatus io)) in
         if negb connected then throw "MT5 not connected"
         else
           update (set_isRunning true) ;;
           emit (statusChanged "running") ;;
           update (set_updateInterval true) ;;
           ret true
     end)
    (fun error => emit (errorEvent error) ;; ret false).

Definition stop : M unit :=
  update (set_isRunning false) ;;
  update (set_updateInterval false) ;;
  emit (statusChanged "stopped").

Definition getStatus (bot : TradingBot) : string :=
  if isRunning bot then "running" else "stopped".

Definition updatePriceHistory (symbol : string) (price : Q)
    (bot : TradingBot) : TradingBot :=
  let history := default [] (priceHistory bot !! symbol) in
  let pushed := history ++ [price] in
  let kept := if (200 <? length pushed)%nat then drop 1 pushed else pushed in
  set_priceHistory (<[symbol := kept]> (priceHistory bot)) bot.

Definition defaultParams : StrategyParams :=
  {| fastMA := 10; slowMA := 20; rsiPeriod := 14;
     rsiOverbought := 70; rsiOversold := 30 |}.

(** [this.settings?.strategyParams as StrategyParams || { ... }] *)
Definition paramsOf (bot : TradingBot) : StrategyParams :=
  match settings bot with
  | Some s => default defaultParams (strategyParams s)
  | None => defaultParams
  end.

(** [prices[prices.length - 1]]; a signal is only built from a history
    that has a last element. *)
Definition currentPriceOf (prices : list Q) : Q := default 0%Q (last prices).

Definition maStrategy (bot : TradingBot) (symbol : string)
    (prices : list Q) : option TradingSignal :=
  let params := paramsOf bot in
  if (Z.of_nat (length prices) <? slowMA params)%Z then None
  else
    let fast := calculateSMA prices (fastMA params) in
    let slow := calculateSMA prices (slowMA params) in
    let prevFast := calculateSMA (slice_init prices) (fastMA params) in
    let prevSlow := calculateSMA (slice_init prices) (slowMA params) in
    let currentPrice := currentPriceOf prices in
    if nan_leb prevFast prevSlow && nan_ltb slow fast then
      Some {| symbol := symbol; action := BUY; confidence := 0.7;
              reason := MABullishCrossover;
              stopLoss := Some (currentPrice * 0.995)%Q;
              takeProfit := Some (currentPrice * 1.01)%Q |}
    else if nan_leb prevSlow prevFast && nan_ltb fast slow then
      Some {| symbol := symbol; action := SELL; confidence := 0.7;
              reason := MABearishCrossover;
              stopLoss := Some (currentPrice * 1.005)%Q;
              takeProfit := Some (currentPrice * 0.99)%Q |}
    else None.

Definition rsiStrategy (bot : TradingBot) (symbol : string)
    (prices : list Q) : option TradingSignal :=
  let params := paramsOf bot in
  if (Z.of_nat (length prices) <? rsiPeriod params + 1)%Z then None
  else
    let rsi := calculateRSI prices (rsiPeriod params) in
    let currentPrice := currentPriceOf prices in
    if ltb rsi (rsiOversold params) then
      Some {| symbol := symbol; action := BUY; confidence := 0.6;
              reason := RSIOversold rsi;
              stopLoss := Some (currentPrice * 0.995)%Q;
              takeProfit := Some (currentPrice * 1.015)%Q |}
    else if ltb (rsiOverbought params) rsi then
      Some {| symbol := symbol; action := SELL; confidence := 0.6;
              reason := RSIOverbought rsi;
              stopLoss := Some (currentPrice * 1.005)%Q;
              takeProfit := Some (currentPrice * 0.985)%Q |}
    else None.

(** [this.settings?.strategy || 'ma_crossover'] *)
Definition strategyOf (bot : TradingBot) : string :=
  match settings bot with
  | Some s => if String.eqb (strategy s) "" then "ma_crossover" else strategy s
  | None => "ma_crossover"
  end.

Definition generateTradingSignal (symbol : string) (bot : TradingBot)
    : option TradingSignal :=
  match priceHistory bot !! symbol with
  | None => None
  | Some prices =>
      if (length prices <? 50)%nat then None
      else if String.eqb (strategyOf bot) "ma_crossover"
           then maStrategy bot symbol prices
      else if String.eqb (strategyOf bot) "rsi_strategy"
           then rsiStrategy bot symbol prices
      else maStrategy bot symbol prices
  end.

Definition shouldExecuteSignal (bot : TradingBot) (symbol : string)
    (signal : TradingSignal) (now : Z) : bool :=
  let lastSignal := default 0%Z (lastSignalTime bot !! symbol) in
  if (now - lastSignal <? minSignalInterval)%Z then false
  else if ltb (confidence signal) 0.5 then false
  else true.

(** The position sizing of [executeSignal], one definition per local
    constant. *)
Definition riskAmount (accountBalance risk : Q) : Q :=
  (accountBalance * (risk / 100))%Q.

Definition stopLossDistance (currentBid : Q) (sl : option Q) : Q :=
  if truthy sl then Math_abs (currentBid - default 0%Q sl)%Q
  else (currentBid * 0.005)%Q.

Definition volume (risk distance : Q) : Q :=
  Math_min (risk / (distance * 100000))%Q 1.0%Q.

Definition orderRequest (signal : TradingSignal) (vol : Q) : MT5TradeRequest :=
  {| req_symbol := symbol signal;
     req_volume := (inject_Z (Math_round (vol * 100)) / 100)%Q;
     req_type := match action signal with
                 | BUY => ORDER_TYPE_BUY
                 | _ => ORDER_TYPE_SELL
                 end;
     req_deviation := 20;
     req_sl := stopLoss signal;
     req_tp := takeProfit signal;
     req_comment := reason signal;
     req_magic := 234000 |}.

Definition executeSignal (signal : TradingSignal) (io : ExecuteIO) : M unit :=
  try_catch
    (let* bot := this in
     match settings bot with
     | None => ret tt
     | Some s =>
         let* accountInfo := await GetAccountInfo (accountInfoReply io) in
         let risk := riskAmount (balance accountInfo) (riskPerTrade s) in
         let* currentPrice :=
           await (GetSymbolInfo (symbol signal)) (symbolInfoReply io) in
         let distance := stopLossDistance (bid currentPrice) (stopLoss signal) in
         let request := orderRequest signal (volume risk distance) in
         let* result := await (SendOrder request) (sendOrderReply io) in
         let trade :=
           {| trade_accountId := accountId bot;
              trade_ticket := ticket result;
              trade_symbol := symbol signal;
              trade_type := action signal;
              trade_volume := res_volume result;
              trade_entryPrice := res_price result;
              trade_stopLoss := stopLoss signal;
              trade_takeProfit := takeProfit signal;
              trade_comment := reason signal;
              trade_isManual := false |} in
         await (CreateTrade trade) (createTradeReply io) ;;
         update (fun b =>
                   set_lastSignalTime
                     (<[symbol signal := doneAt io]> (lastSignalTime b)) b) ;;
         emit (tradeExecuted signal result)
     end)
    (fun error => emit (errorEvent error)).

(** Lines 103 to 105 of [runTradingLoop]:
    [if (signal && this.shouldExecuteSignal(symbol, signal))
       await this.executeSignal(signal)]. *)
Definition actOnSignal (symbol : string) (signal : option TradingSignal)
    (now : Z) (io : ExecuteIO) : M unit :=
  let* bot := this in
  match signal with
  | Some sig =>
      if shouldExecuteSignal bot symbol sig now then executeSignal sig io
      else ret tt
  | None => ret tt
  end.

(** The body of the [for ... of] loop of [runTradingLoop] for one
    symbol. *)
Definition evaluateSymbol (symbol : string) (io : SymbolIO) : M unit :=
  let* bot := this in
  match settings bot with
  | None => throw "TypeError" (* [this.settings] is null: not met in a tick *)
  | Some s =>
      let* shouldPause :=
        shouldPauseTradingForNews symbol (newsAvoidanceMinutes s)
          (upcomingNewsReply io) in
      if shouldPause then
        emit (newsPause symbol "High impact news event approaching")
      else
        let* priceData := await (GetSymbolInfo symbol) (priceReply io) in
        update (updatePriceHistory symbol (bid priceData)) ;;
        let* bot' := this in
        let signal := generateTradingSignal symbol bot' in
        actOnSignal symbol signal (checkedAt io) (executeIO io)
  end.

(** The [for ... of] loop: [io i] holds the answers for the [i]-th
    symbol of the list; an exception leaves the loop. *)
Fixpoint forEachSymbol (i : nat) (symbols : list string)
    (io : nat -> SymbolIO) : M unit :=
  match symbols with
  | [] => ret tt
  | symbol :: rest =>
      evaluateSymbol symbol (io i) ;;
      forEachSymbol (S i) rest io
  end.

Definition runTradingLoop (io : nat -> SymbolIO) : M unit :=
  let* bot := this in
  match isRunning bot, settings bot with
  | true, Some s =>
      try_catch
        (forEachSymbol 0 (tradingSymbols s) io)
        (fun error => emit (errorEvent error))
  | _, _ => ret tt
  end.

(** A sequence of signals met by the admission check, each with the
    clock reading of the check and the answers to its execution. *)
Record Evaluation := {
  ev_signal : TradingSignal;
  ev_now : Z;
  ev_io : ExecuteIO
}.

Definition evaluate (ev : Evaluation) (bot : TradingBot) : TradingBot :=
  exec (actOnSignal (symbol (ev_signal ev)) (Some (ev_signal ev))
          (ev_now ev) (ev_io ev)) bot.

Definition evaluateAll (evs : list Evaluation) (bot : TradingBot) : TradingBot :=
  fold_left (fun b ev => evaluate ev b) evs bot.

(** Recording a sequence of observations. *)
Definition recordAll (obs : list (string * Q)) (bot : TradingBot) : TradingBot :=
  fold_left (fun b o => updatePriceHistory (fst o) (snd o) b) obs bot.

End Engine.

(** ** Notions of the design document *)

Module Design.
Import Num Indicators Data Async Engine.

(** [get(symbol)]: the recorded history, empty for a symbol never
    recorded. *)
Definition history (symbol : string) (bot : TradingBot) : list Q :=
  default [] (priceHistory bot !! symbol).

(** The prices observed for [symbol], in the order of observation. *)
Definition observed (symbol : string) (obs : list (string * Q)) : list Q :=
  map snd (List.filter (fun o => String.eqb (fst o) symbol) obs).

(** The [n] most recent elements. *)
Definition lastN {A} (n : nat) (l : list A) : list A :=
  drop (length l - n) l.

(** [v] is [x] rounded to two decimal places: the multiple of [0.01]
    nearest to [x], the upper one on a tie. *)
Definition roundedTo2 (x v : Q) : Prop :=
  (exists k : Z, v == inject_Z k / 100)%Q /\
  (x - (1 # 200) < v)%Q /\ (v <= x + (1 # 200))%Q.


(** The clock readings of a sequence of evaluations, in the order in
    which they are taken: for each evaluation the reading of the admission
    check, then the reading at the end of the execution (of no effect when
    the signal is discarded or its execution fails). *)
Fixpoint readings (evs : list Evaluation) : list Z :=
  match evs with
  | [] => []
  | ev :: rest => ev_now ev :: doneAt (ev_io ev) :: readings rest
  end.

(** The clock never runs backwards. *)
Fixpoint nondecreasing (ts : list Z) : Prop :=
  match ts with
  | t1 :: (t2 :: _) as rest => (t1 <= t2)%Z /\ nondecreasing rest
  | _ => True
  end.

(** The execution of a signal goes through: the account, the quote,
    the order and the trade record are all answered. *)
Definition goesThrough (io : ExecuteIO) : Prop :=
  (exists a, accountInfoReply io = Ok a) /\
  (exists q, symbolInfoReply io = Ok q) /\
  (exists r, sendOrderReply io = Ok r) /\
  createTradeReply io = Ok tt.

(** Order on numbers that may be [NaN]: nothing compares with [NaN]. *)
Definition num_le (a b : option Q) : Prop :=
  exists x y, a = Some x /\ b = Some y /\ (x <= y)%Q.

Definition num_lt (a b : option Q) : Prop :=
  exists x y, a = Some x /\ b = Some y /\ (x < y)%Q.

(** The same answers, except that the news calendar answers with no
    event at all. *)
Definition withNoNews (io : SymbolIO) : SymbolIO :=
  {| upcomingNewsReply := Ok []; priceReply := priceReply io;
     checkedAt := checkedAt io; executeIO := executeIO io |}.

(** The orders submitted to the gateway so far, oldest first. *)
Definition submittedOrders (bot : TradingBot) : list MT5TradeRequest :=
  flat_map (fun o => match o with
                     | Call (SendOrder request) => [request]
                     | _ => []
                     end) (log bot).

(** The symbols whose price has been asked from the gateway so far. *)
Definition quotedSymbols (bot : TradingBot) : list string :=
  flat_map (fun o => match o with
                     | Call (GetSymbolInfo sym) => [sym]
                     | _ => []
                     end) (log bot).

(** What a computation leaves untouched: the settings and the running
    flag. *)
Definition keeps (bot bot' : TradingBot) : Prop :=
  settings bot' = settings bot /\ isRunning bot' = isRunning bot.

End Design.

(** ** Concrete runs *)

Module Scenarios.
Import Data Async Engine.

Definition demoSettings : BotSettings :=
  {| strategy := "rsi_strategy"; riskPerTrade := 1;
     tradingSymbols := ["XAUUSD"; "EURUSD"];
     newsAvoidanceMinutes := 30; strategyParams := None |}.

(** A bot started with [demoSettings] on a connected gateway. *)
Definition startedBot : TradingBot :=
  exec (start {| botSettingsReply := Ok (Some demoSettings);
                 connectionStatus := true |})
       (createTradingBot "default-account").

(** The same bot after 49 ticks that observed EURUSD at 1.08675. *)
Definition botWith49Prices : TradingBot :=
  recordAll (repeat ("EURUSD", 1.08675%Q) 49) startedBot.

Definition demoAccount : MT5AccountInfo :=
  {| balance := 2000000; equity := 2001250 |}.

Definition demoQuote : MT5PriceData := {| bid := 1.08675; ask := 1.08685 |}.

Definition demoFill : OrderResult :=
  {| ticket := "1700000000000"; res_volume := 1; res_price := 1.08685 |}.

(** The gateway fills the order and the trade is stored. *)
Definition filledAt (t : Z) : ExecuteIO :=
  {| accountInfoReply := Ok demoAccount; symbolInfoReply := Ok demoQuote;
     sendOrderReply := Ok demoFill; createTradeReply := Ok tt;
     doneAt := t |}.

(** The gateway rejects the order. *)
Definition rejectedAt (t : Z) : ExecuteIO :=
  {| accountInfoReply := Ok demoAccount; symbolInfoReply := Ok demoQuote;
     sendOrderReply := Throw "Order rejected"; createTradeReply := Ok tt;
     doneAt := t |}.

Definition buySignal (c : Q) : TradingSignal :=
  {| symbol := "EURUSD"; action := BUY; confidence := c;
     reason := RSIOversold 25;
     stopLoss := Some (1.08675 * 0.995)%Q;
     takeProfit := Some (1.08675 * 1.015)%Q |}.


(** One tick in which every price is served, the news calendar is down
    and the gateway rejects every order. *)
Definition everythingElseFails (i : nat) : SymbolIO :=
  {| upcomingNewsReply := Throw "calendar unavailable";
     priceReply := Ok demoQuote;
     checkedAt := 1700000000000;
     executeIO := rejectedAt 1700000000250 |}.

(** Fifty prices at 1, then a jump to 5: the fast average crosses the
    slow one upwards. *)
Definition crossingPrices : list Q := repeat 1%Q 50 ++ [5%Q].

End Scenarios.

(** ** Further notions, for the properties beyond the design document

    Two remarks on the engine as modelled above.  An [error] event is
    taken to have a listener, as it has for every bot that the start route
    has registered: on a bot without one, Node's [emit('error', ...)]
    throws instead of returning.  The length of a symbol is counted in
    characters of one byte, which is the length JavaScript gives for the
    ASCII symbols of currency pairs. *)

Module Notions.
Import Num Indicators Data Async NewsService Engine Design.

(** No price of the series is below the one before it. *)
Definition neverFalls (prices : list Q) : Prop :=
  Forall (fun change => 0 <= change)%Q (changes prices).

(** Every price of the series is below the one before it. *)
Definition alwaysFalls (prices : list Q) : Prop :=
  Forall (fun change => change < 0)%Q (changes prices).

(** The first request of [executeSignal] that fails, in the order in
    which they are issued: account, quote, order, trade record. *)
Definition firstFailure (io : ExecuteIO) : option Error :=
  match accountInfoReply io, symbolInfoReply io,
        sendOrderReply io, createTradeReply io with
  | Throw e, _, _, _ => Some e
  | Ok _, Throw e, _, _ => Some e
  | Ok _, Ok _, Throw e, _ => Some e
  | Ok _, Ok _, Ok _, Throw e => Some e
  | Ok _, Ok _, Ok _, Ok _ => None
  end.

(** The time of the last signal of a symbol as [shouldExecuteSignal]
    reads it: 0 when none is stored. *)
Definition lastSignalOf (symbol : string) (bot : TradingBot) : Z :=
  default 0%Z (lastSignalTime bot !! symbol).

(** A high-impact event of the list is in one of the two currencies of
    the symbol. *)
Definition highImpactFor (symbol : string) (events : list NewsEvent) : Prop :=
  exists event,
    In event events /\ impact event = "high"%string /\
    (6 <= String.length symbol)%nat /\
    (currency event = String.substring 0 3 symbol \/
     currency event = String.substring 3 3 symbol).

(** The bot of [Scenarios.botWith49Prices] one observation later. *)
Definition botWith50Prices : TradingBot :=
  updatePriceHistory "EURUSD" 1.08675%Q Scenarios.botWith49Prices.

(** A calendar with one high-impact event for the dollar and one
    low-impact event for the euro. *)
Definition dollarNews : list NewsEvent :=
  [ {| impact := "low"; currency := "EUR" |};
    {| impact := "high"; currency := "USD" |} ].

(** One tick in which the calendar answers [dollarNews]. *)
Definition newsAhead (i : nat) : SymbolIO :=
  {| upcomingNewsReply := Ok dollarNews;
     priceReply := Ok Scenarios.demoQuote;
     checkedAt := 1700000000000;
     executeIO := Scenarios.filledAt 1700000000250 |}.

(** No history is longer than the cap. *)
Definition capped (bot : TradingBot) : Prop :=
  forall symbol, length (history symbol bot) <= 200.

(** The timer fires once per element of [ticks], each tick with its own
    answers. *)
Definition runTicks (ticks : list (nat -> SymbolIO)) (bot : TradingBot)
    : TradingBot :=
  fold_left (fun b io => exec (runTradingLoop io) b) ticks bot.

(** The trade record that [executeSignal] stores for a filled order. *)
Definition tradeOf (bot : TradingBot) (signal : TradingSignal)
    (result : OrderResult) : InsertTrade :=
  {| trade_accountId := accountId bot;
     trade_ticket := ticket result;
     trade_symbol := symbol signal;
     trade_type := action signal;
     trade_volume := res_volume result;
     trade_entryPrice := res_price result;
     trade_stopLoss := stopLoss signal;
     trade_takeProfit := takeProfit signal;
     trade_comment := reason signal;
     trade_isManual := false |}.

(** The symbols the bot trades: those of its settings. *)
Definition configuredSymbols (bot : TradingBot) : list string :=
  match settings bot with
  | Some s => tradingSymbols s
  | None => []
  end.

(** The orders in a stretch of the log. *)
Definition ordersIn (outputs : list Output) : list MT5TradeRequest :=
  flat_map (fun o => match o with
                     | Call (SendOrder request) => [request]
                     | _ => []
                     end) outputs.

(** Between [before] and [after] the orders [added] were submitted, and
    no other. *)
Definition ordersAdded (before after : TradingBot)
    (added : list MT5TradeRequest) : Prop :=
  submittedOrders after = submittedOrders before ++ added.

(** How many of the [requests] are orders for [sym]. *)
Definition ordersFor (sym : string) (requests : list MT5TradeRequest) : nat :=
  length (List.filter (fun request => String.eqb sym (req_symbol request))
            requests).

(** How many times [sym] stands in the list of symbols. *)
Definition timesListed (sym : string) (symbols : list string) : nat :=
  length (List.filter (String.eqb sym) symbols).

End Notions.

(** ** The bot routes of [server/routes.ts]

    The routes [POST /api/bot/:accountId/start], [.../stop] and
    [GET .../status] over the map [activeBots], with the listeners that
    the start route attaches to a started bot.  A response is its status
    code ([res.json] alone answers 200) and its body.  The WebSocket service
    is a collaborator: what it is asked to broadcast is kept in a list,
    oldest first. *)

Module Routes.
Import Data Async Engine.

Inductive Broadcast :=
| BotStatus (account : string) (status : string)
| TradeUpdate (signal : TradingSignal) (result : OrderResult)
| ErrorMessage (message : string).

Inductive Body :=
| Success (status : string)
| Failure (error : string)
| Status (status : string) (running : bool).

Record Response := { code : Z; body : Body }.

Record Server := {
  activeBots : gmap string TradingBot;
  broadcasts : list Broadcast
}.

Definition emptyServer : Server := {| activeBots := ∅; broadcasts := [] |}.

(** The three listeners of the start route: [tradeExecuted],
    [statusChanged] and [error] are passed on to the WebSocket service;
    nothing listens to [newsPause]. *)
Definition relay (account : string) (o : Output) : list Broadcast :=
  match o with
  | Emit (tradeExecuted signal result) => [TradeUpdate signal result]
  | Emit (statusChanged status) => [BotStatus account status]
  | Emit (errorEvent e) => [ErrorMessage e]
  | _ => []
  end.

(** What the listeners pass on of what the bot did between [before] and
    [after]. *)
Definition relayed (account : string) (before after : TradingBot)
    : list Broadcast :=
  flat_map (relay account) (drop (length (log before)) (log after)).

(** [POST /api/bot/:accountId/start].  The listeners are attached after
    [start] has returned, so nothing that [start] emits is passed on.  A
    [start] that fails answers [false] or rejects; the response is the same. *)
Definition startRoute (account : string) (io : StartIO) (srv : Server)
    : Response * Server :=
  match activeBots srv !! account with
  | Some _ => ({| code := 400; body := Failure "Bot already running" |}, srv)
  | None =>
      match start io (createTradingBot account) with
      | (Ok true, bot) =>
          ({| code := 200; body := Success "running" |},
           {| activeBots := <[account := bot]> (activeBots srv);
              broadcasts := broadcasts srv |})
      | _ => ({| code := 500; body := Failure "Failed to start bot" |}, srv)
      end
  end.

(** [POST /api/bot/:accountId/stop] *)
Definition stopRoute (account : string) (srv : Server) : Response * Server :=
  match activeBots srv !! account with
  | None => ({| code := 400; body := Failure "Bot not running" |}, srv)
  | Some bot =>
      let stopped := exec stop bot in
      ({| code := 200; body := Success "stopped" |},
       {| activeBots := delete account (activeBots srv);
          broadcasts := broadcasts srv ++ relayed account bot stopped
                        ++ [BotStatus account "stopped"] |})
  end.

(** [GET /api/bot/:accountId/status] *)
Definition statusRoute (account : string) (srv : Server) : Response :=
  let status := match activeBots srv !! account with
                | Some bot => getStatus bot
                | None => "stopped"%string
                end in
  {| code := 200; body := Status status (String.eqb status "running") |}.

(** The timer of a registered bot fires: one tick of that bot. *)
Definition timerFires (account : string) (io : nat -> SymbolIO) (srv : Server)
    : Server :=
  match activeBots srv !! account with
  | None => srv
  | Some bot =>
      let bot' := exec (runTradingLoop io) bot in
      {| activeBots := <[account := bot']> (activeBots srv);
         broadcasts := broadcasts srv ++ relayed account bot bot' |}
  end.

Inductive Incoming :=
| StartRequest (account : string) (io : StartIO)
| StopRequest (account : string)
| StatusRequest (account : string)
| TimerFires (account : string) (io : nat -> SymbolIO).

Definition handle (incoming : Incoming) (srv : Server) : Server :=
  match incoming with
  | StartRequest account io => snd (startRoute account io srv)
  | StopRequest account => snd (stopRoute account srv)
  | StatusRequest _ => srv
  | TimerFires account io => timerFires account io srv
  end.

Definition serve (incoming : list Incoming) (srv : Server) : Server :=
  fold_left (fun s i => handle i s) incoming srv.

(** A bot as the registry holds it under [account]. *)
Definition registered (account : string) (bot : TradingBot) : Prop :=
  accountId bot = account /\ isRunning bot = true /\
  is_Some (settings bot) /\ updateInterval bot = true.

(** The fields that tell whose bot it is and whether it runs are the
    same in both. *)
Definition sameIdentity (bot bot' : TradingBot) : Prop :=
  accountId bot' = accountId bot /\ isRunning bot' = isRunning bot /\
  settings bot' = settings bot /\ updateInterval bot' = updateInterval bot.

(** The registry holds running bots only. *)
Definition wellKept (srv : Server) : Prop :=
  forall account bot,
    activeBots srv !! account = Some bot -> registered account bot.

End Routes.

(** ** The mock gateway (class [MockMT5Service])

    The gateway the engine and the routes are wired to: its table of
    current prices and its list of open positions.  [this.currentPrices] is
    a JavaScript object read with [currentPrices[symbol]]; the model reads
    it as a finite map, which is what the object does for every symbol that
    is not the name of a member of [Object.prototype]
    ([objectPrototypeNames]).  The requests are those the bot builds: their
    comment is never empty, so the default comment of [sendOrder] is not
    met.  The random trade volume of [getSymbolInfo] and the random drift of
    the prices are left out. *)

Module MockGateway.
Import Num Data Async.

Record Quote := { quote_bid : Q; quote_ask : Q; quote_last : Q }.

Inductive PositionType := POSITION_BUY | POSITION_SELL.

(** The comment of a position: that of the order of the bot, or a
    text. *)
Inductive Comment :=
| BotComment (why : Reason)
| TextComment (text : string).

Record MT5Position := {
  pos_ticket : string;
  pos_symbol : string;
  pos_type : PositionType;
  pos_volume : Q;
  pos_priceOpen : Q;
  pos_priceCurrent : Q;
  pos_profit : Q;
  pos_swap : Q;
  pos_commission : Q;
  pos_comment : Comment;
  pos_time : Z
}.

Record MockMT5 := {
  isConnected : bool;
  positions : list MT5Position;
  currentPrices : gmap string Quote
}.

(** What [closePosition] returns. *)
Record CloseResult := {
  close_ticket : string;
  close_price : Q;
  close_profit : Q
}.

Definition objectPrototypeNames : list string :=
  ["constructor"; "hasOwnProperty"; "isPrototypeOf"; "propertyIsEnumerable";
   "toLocaleString"; "toString"; "valueOf"; "__proto__";
   "__defineGetter__"; "__defineSetter__";
   "__lookupGetter__"; "__lookupSetter__"]%string.

Definition set_positions (ps : list MT5Position) (st : MockMT5) : MockMT5 :=
  {| isConnected := isConnected st; positions := ps;
     currentPrices := currentPrices st |}.

Definition getConnectionStatus (st : MockMT5) : bool := isConnected st.

Definition getSymbolInfo (symbol : string) (st : MockMT5)
    : Result MT5PriceData :=
  match currentPrices st !! symbol with
  | None => Throw ("Symbol " ++ symbol ++ " not found")%string
  | Some prices => Ok {| bid := quote_bid prices; ask := quote_ask prices |}
  end.

(** [ticket] is the text of [Date.now()] and [now] the reading of the
    clock when the position is made. *)
Definition sendOrder (request : MT5TradeRequest) (ticket : string) (now : Z)
    (st : MockMT5) : Result OrderResult * MockMT5 :=
  match currentPrices st !! req_symbol request with
  | None =>
      (Throw ("Symbol " ++ req_symbol request ++ " not available")%string, st)
  | Some currentPrice =>
      let executionPrice :=
        match req_type request with
        | ORDER_TYPE_BUY => quote_ask currentPrice
        | ORDER_TYPE_SELL => quote_bid currentPrice
        end in
      let newPosition :=
        {| pos_ticket := ticket;
           pos_symbol := req_symbol request;
           pos_type := match req_type request with
                       | ORDER_TYPE_BUY => POSITION_BUY
                       | ORDER_TYPE_SELL => POSITION_SELL
                       end;
           pos_volume := req_volume request;
           pos_priceOpen := executionPrice;
           pos_priceCurrent := executionPrice;
           pos_profit := 0;
           pos_swap := 0;
           pos_commission := (- req_volume request * 2.5)%Q;
           pos_comment := BotComment (req_comment request);
           pos_time := now |} in
      (Ok {| ticket := ticket; res_volume := req_volume request;
             res_price := executionPrice |},
       set_positions (positions st ++ [newPosition]) st)
  end.

(** [this.positions.findIndex(pos => pos.ticket === ticket)]: the index
    of the first position with the ticket. *)
Fixpoint findIndex (ticket : string) (ps : list MT5Position) : option nat :=
  match ps with
  | [] => None
  | p :: rest =>
      if String.eqb (pos_ticket p) ticket then Some 0
      else option_map S (findIndex ticket rest)
  end.

(** [this.positions.splice(index, 1)] *)
Definition splice1 {A} (index : nat) (l : list A) : list A :=
  take index l ++ drop (S index) l.

(** [closingTicket] is the text of [Date.now()]. *)
Definition closePosition (ticket : string) (closingTicket : string)
    (st : MockMT5) : Result CloseResult * MockMT5 :=
  match findIndex ticket (positions st) with
  | None => (Throw "Position not found", st)
  | Some positionIndex =>
      match positions st !! positionIndex with
      | None => (Throw "Position not found", st) (* not met: the index is
                                                    that of a position *)
      | Some position =>
          match currentPrices st !! pos_symbol position with
          | None =>
              (Throw ("Symbol " ++ pos_symbol position
                      ++ " not available")%string, st)
          | Some currentPrice =>
              let closePrice :=
                match pos_type position with
                | POSITION_BUY => quote_bid currentPrice
                | POSITION_SELL => quote_ask currentPrice
                end in
              (Ok {| close_ticket := closingTicket; close_price := closePrice;
                     close_profit := pos_profit position |},
               set_positions (splice1 positionIndex (positions st)) st)
          end
      end
  end.

(** The body of the [forEach] of [getPositions]. *)
Definition revalue (prices : gmap string Quote) (position : MT5Position)
    : MT5Position :=
  match prices !! pos_symbol position with
  | None => position
  | Some currentPrice =>
      let current :=
        match pos_type position with
        | POSITION_BUY => quote_bid currentPrice
        | POSITION_SELL => quote_ask currentPrice
        end in
      let priceDiff :=
        match pos_type position with
        | POSITION_BUY => (current - pos_priceOpen position)%Q
        | POSITION_SELL => (pos_priceOpen position - current)%Q
        end in
      {| pos_ticket := pos_ticket position;
         pos_symbol := pos_symbol position;
         pos_type := pos_type position;
         pos_volume := pos_volume position;
         pos_priceOpen := pos_priceOpen position;
         pos_priceCurrent := current;
         pos_profit := (priceDiff * pos_volume position * 100000)%Q;
         pos_swap := pos_swap position;
         pos_commission := pos_commission position;
         pos_comment := pos_comment position;
         pos_time := pos_time position |}
  end.

Definition getPositions (st : MockMT5) : list MT5Position * MockMT5 :=
  let revalued := map (revalue (currentPrices st)) (positions st) in
  (revalued, set_positions revalued st).

(** The mock as it is constructed: connected, with the six pairs of its
    price table and its one demo position. *)
Definition demoPrices : gmap string Quote :=
  list_to_map
    [ ("EURUSD"%string, {| quote_bid := 1.08675; quote_ask := 1.08685;
                           quote_last := 1.08680 |});
      ("GBPUSD"%string, {| quote_bid := 1.25450; quote_ask := 1.25465;
                           quote_last := 1.25458 |});
      ("USDJPY"%string, {| quote_bid := 149.125; quote_ask := 149.135;
                           quote_last := 149.130 |});
      ("USDCHF"%string, {| quote_bid := 0.89250; quote_ask := 0.89265;
                           quote_last := 0.89258 |});
      ("AUDUSD"%string, {| quote_bid := 0.66520; quote_ask := 0.66535;
                           quote_last := 0.66528 |});
      ("USDCAD"%string, {| quote_bid := 1.35780; quote_ask := 1.35795;
                           quote_last := 1.35788 |}) ].

Definition demoPosition (openedAt : Z) : MT5Position :=
  {| pos_ticket := "123456789"; pos_symbol := "EURUSD";
     pos_type := POSITION_BUY; pos_volume := 0.1;
     pos_priceOpen := 1.08550; pos_priceCurrent := 1.08675;
     pos_profit := 125; pos_swap := 0; pos_commission := -2.50;
     pos_comment := TextComment "Bot trade"; pos_time := openedAt |}.

Definition demoGateway : MockMT5 :=
  {| isConnected := true; positions := [demoPosition 1699999000000];
     currentPrices := demoPrices |}.

(** The order the bot builds for a BUY signal for EURUSD sized at one
    lot. *)
Definition demoOrder : MT5TradeRequest :=
  Engine.orderRequest (Scenarios.buySignal 0.6) 1.

End MockGateway.

(** ** The stored calendar ([DatabaseStorage.getUpcomingNews])

    The table [news_events] is a list of rows, of which the model keeps
    the event as the gate reads it and the time of the event in
    milliseconds.  The query selects the rows whose time lies between the
    clock reading [now] and [new Date(now.getTime() + hours * 60 * 60 *
    1000)], both included, and orders them by time (rows of equal time in the
    order of the table). *)

Module NewsStore.
Import Data Async NewsService.

Record NewsRow := { row_event : NewsEvent; eventTime : Z }.

(** The time value of [new Date(x)]: [x] without its fraction. *)
Definition timeClip (x : Q) : Z := Z.quot (Qnum x) (Zpos (Qden x)).

Definition inWindow (now future : Z) (row : NewsRow) : bool :=
  (now <=? eventTime row)%Z && (eventTime row <=? future)%Z.

Fixpoint insertByTime (row : NewsRow) (sorted : list NewsRow) : list NewsRow :=
  match sorted with
  | [] => [row]
  | first :: rest =>
      if (eventTime row <? eventTime first)%Z then row :: sorted
      else first :: insertByTime row rest
  end.

Definition orderByTime (rows : list NewsRow) : list NewsRow :=
  fold_right insertByTime [] rows.

Definition getUpcomingNews (table : list NewsRow) (now : Z) (hours : Q)
    : list NewsRow :=
  let future := timeClip (inject_Z now + hours * 60 * 60 * 1000)%Q in
  orderByTime (List.filter (inWindow now future) table).

(** What the gate is answered by the storage over [table]. *)
Definition upcomingEvents (table : list NewsRow) (now : Z) (minutesAhead : Z)
    : Result (list NewsEvent) :=
  Ok (map row_event
        (getUpcomingNews table now (inject_Z minutesAhead / 60)%Q)).

End NewsStore.

(** ** Facts on numbers *)

Module NumFacts.
Import Num.

Lemma ltb_lt x y : ltb x y = true <-> (x < y)%Q.
Proof.
  unfold ltb. rewrite negb_true_iff. split.
  - intros H. apply Qnot_le_lt. intros Hle.
    apply Qle_bool_iff in Hle. congruence.
  - intros H. destruct (Qle_bool y x) eqn:E; [|reflexivity].
    apply Qle_bool_iff in E. exfalso. apply (Qlt_not_le _ _ H E).
Qed.

Lemma ltb_ge x y : ltb x y = false <-> (y <= x)%Q.
Proof.
  unfold ltb. rewrite negb_false_iff. apply Qle_bool_iff.
Qed.

Lemma leb_le x y : leb x y = true <-> (x <= y)%Q.
Proof. apply Qle_bool_iff. Qed.

Lemma eqb_eq x y : eqb x y = true <-> (x == y)%Q.
Proof. apply Qeq_bool_iff. Qed.

Lemma Math_min_le_r x y : (Math_min x y <= y)%Q.
Proof.
  unfold Math_min. destruct (ltb y x) eqn:E.
  - apply Qle_refl.
  - apply ltb_ge in E. exact E.
Qed.

Lemma Math_round_bounds x :
  (inject_Z (Math_round x) <= x + (1 # 2))%Q /\
  (x + (1 # 2) < inject_Z (Math_round x) + 1)%Q.
Proof.
  unfold Math_round. split.
  - apply Qfloor_le.
  - pose proof (Qlt_floor (x + (1 # 2))%Q) as H.
    rewrite inject_Z_plus in H. exact H.
Qed.

End NumFacts.

(** ** The price history buffer *)

Module BufferFacts.
Import Data Async Engine Design.

Lemma lastN_short {A} (n : nat) (l : list A) :
  length l <= n -> lastN n l = l.
Proof.
  intros H. unfold lastN. replace (length l - n) with 0 by lia. reflexivity.
Qed.

Lemma length_lastN {A} (n : nat) (l : list A) : length (lastN n l) <= n.
Proof. unfold lastN. rewrite length_drop. lia. Qed.

Lemma lastN_app_lastN {A} (n : nat) (a b : list A) :
  lastN n (lastN n a ++ b) = lastN n (a ++ b).
Proof.
  unfold lastN.
  destruct (decide (length a <= n)) as [Hle|Hgt].
  - replace (length a - n) with 0 by lia. reflexivity.
  - rewrite length_app, length_drop.
    replace (length a - (length a - n) + length b - n) with (length b) by lia.
    rewrite length_app.
    replace (length a + length b - n)
      with ((length a - n) + length b) by lia.
    rewrite <- drop_drop.
    rewrite (drop_app_le a b (length a - n)) by lia.
    reflexivity.
Qed.

(** One push followed by the eviction test keeps the 200 most recent. *)
Lemma push_evict (h : list Q) (p : Q) :
  length h <= 200 ->
  (if (200 <? length (h ++ [p]))%nat then drop 1 (h ++ [p]) else h ++ [p])
  = lastN 200 (h ++ [p]).
Proof.
  intros Hlen. unfold lastN. rewrite length_app. simpl length.
  destruct (200 <? length h + 1)%nat eqn:E.
  - apply Nat.ltb_lt in E.
    replace (length h + 1 - 200) with 1 by lia. reflexivity.
  - apply Nat.ltb_ge in E.
    replace (length h + 1 - 200) with 0 by lia. reflexivity.
Qed.

Lemma history_update_same symbol price bot :
  history symbol (updatePriceHistory symbol price bot)
  = (let pushed := history symbol bot ++ [price] in
     if (200 <? length pushed)%nat then drop 1 pushed else pushed).
Proof.
  unfold history, updatePriceHistory. simpl.
  rewrite lookup_insert_eq. reflexivity.
Qed.

Lemma history_update_other symbol other price bot :
  other <> symbol ->
  history symbol (updatePriceHistory other price bot) = history symbol bot.
Proof.
  intros Hne. unfold history, updatePriceHistory. simpl.
  rewrite lookup_insert_ne by exact Hne. reflexivity.
Qed.

Lemma recordAll_history (obs : list (string * Q)) :
  forall (bot : TradingBot) (symbol : string),
    length (history symbol bot) <= 200 ->
    history symbol (recordAll obs bot)
    = lastN 200 (history symbol bot ++ observed symbol obs).
Proof.
  induction obs as [|[s p] obs IH]; intros bot symbol Hlen.
  - unfold observed. simpl. rewrite app_nil_r.
    symmetry. apply lastN_short. exact Hlen.
  - unfold recordAll. simpl fold_left. fold (recordAll obs).
    unfold observed. simpl List.filter.
    destruct (String.eqb s symbol) eqn:E.
    + apply String.eqb_eq in E. subst s.
      rewrite IH.
      * rewrite history_update_same. cbv zeta.
        rewrite push_evict by exact Hlen.
        rewrite lastN_app_lastN. rewrite <- app_assoc. reflexivity.
      * rewrite history_update_same. cbv zeta.
        rewrite push_evict by exact Hlen. apply length_lastN.
    + apply String.eqb_neq in E.
      rewrite IH; rewrite history_update_other by exact E.
      * reflexivity.
      * exact Hlen.
Qed.

(** C9. Whatever sequence of observations is recorded into a fresh
    engine, the history of every symbol is, after the sequence, the 200
    most recent prices observed for that symbol, in the order of
    observation: its length is at most 200, and what was evicted is what
    was observed first.  Recording is a total function: it never fails. *)
Theorem price_history_bounded_fifo :
  forall (account : string) (obs : list (string * Q)) (symbol : string),
    let bot := recordAll obs (createTradingBot account) in
    history symbol bot = lastN 200 (observed symbol obs) /\
    length (history symbol bot) <= 200.
Proof.
  intros account obs symbol bot.
  assert (H : history symbol bot = lastN 200 (observed symbol obs)).
  { unfold bot. rewrite recordAll_history.
    - reflexivity.
    - unfold history. simpl. rewrite lookup_empty. simpl. lia. }
  split; [exact H|]. rewrite H. apply length_lastN.
Qed.

End BufferFacts.

(** ** The signal generator *)

Module GeneratorFacts.
Import Num Indicators Data Async Engine Design.

(** C6. With fewer than 50 recorded prices for the symbol, none at all
    included, [generateTradingSignal] returns no signal, whatever the
    settings of the bot (strategy and parameters) are. *)
Theorem no_signal_below_fifty_prices :
  forall (bot : TradingBot) (symbol : string),
    length (history symbol bot) < 50 ->
    generateTradingSignal symbol bot = None.
Proof.
  intros bot symbol Hlen. unfold generateTradingSignal.
  unfold history in Hlen.
  destruct (priceHistory bot !! symbol) as [prices|]; [|reflexivity].
  simpl in Hlen.
  apply Nat.ltb_lt in Hlen. rewrite Hlen. reflexivity.
Qed.

Lemma no_signal_below_fifty_prices_witness :
  length (history "EURUSD" Scenarios.botWith49Prices) < 50 /\
  generateTradingSignal "EURUSD" Scenarios.botWith49Prices = None.
Proof.
  assert (H : length (history "EURUSD" Scenarios.botWith49Prices) < 50).
  { apply Nat.ltb_lt. vm_compute. reflexivity. }
  split; [exact H|].
  apply (no_signal_below_fifty_prices Scenarios.botWith49Prices "EURUSD" H).
Defined.

End GeneratorFacts.

(** ** The moving-average crossover *)

Module CrossoverFacts.
Import Num Indicators Data Async Engine Design.

Lemma nan_leb_le a b : nan_leb a b = true <-> num_le a b.
Proof.
  unfold nan_leb, num_le. split.
  - destruct a as [x|], b as [y|]; try discriminate.
    intros H. exists x, y. repeat split. apply NumFacts.leb_le. exact H.
  - intros (x & y & -> & -> & H). apply NumFacts.leb_le. exact H.
Qed.

Lemma nan_ltb_lt a b : nan_ltb a b = true <-> num_lt a b.
Proof.
  unfold nan_ltb, num_lt. split.
  - destruct a as [x|], b as [y|]; try discriminate.
    intros H. exists x, y. repeat split. apply NumFacts.ltb_lt. exact H.
  - intros (x & y & -> & -> & H). apply NumFacts.ltb_lt. exact H.
Qed.

Lemma num_lt_asym a b : num_lt a b -> num_lt b a -> False.
Proof.
  intros (x & y & -> & -> & H) (y' & x' & E1 & E2 & H').
  injection E1 as <-. injection E2 as <-.
  apply (Qlt_irrefl x). apply (Qlt_trans _ y); assumption.
Qed.

Lemma slice_last_nil {A} (period : Z) : slice_last (@nil A) period = [].
Proof. unfold slice_last. destruct (0 <? period)%Z; apply drop_nil. Qed.

(** An average is a number only if there is a price. *)
Lemma calculateSMA_some prices period x :
  calculateSMA prices period = Some x ->
  exists p, last prices = Some p /\ currentPriceOf prices = p.
Proof.
  intros H. destruct prices as [|p0 rest] using rev_ind.
  - unfold calculateSMA in H. rewrite slice_last_nil in H. discriminate.
  - exists p0. unfold currentPriceOf. rewrite last_snoc. split; reflexivity.
Qed.

(** C7. On a history with at least [slowMA] prices, [maStrategy] emits a
    BUY signal exactly when the fast average of the history without its
    last price was <= the slow one and the fast average of the whole
    history is > the slow one; it emits a SELL signal exactly when the
    fast average was >= the slow one and is now < it.  Every signal it
    emits has confidence 0.7; with [p] the last price, a BUY has its
    stop-loss at [p * 0.995] and its take-profit at [p * 1.01], a SELL at
    [p * 1.005] and [p * 0.99]. *)
Theorem ma_crossover_signal :
  forall (bot : TradingBot) (sym : string) (prices : list Q),
    (slowMA (paramsOf bot) <= Z.of_nat (length prices))%Z ->
    let fast := calculateSMA prices (fastMA (paramsOf bot)) in
    let slow := calculateSMA prices (slowMA (paramsOf bot)) in
    let prevFast := calculateSMA (slice_init prices) (fastMA (paramsOf bot)) in
    let prevSlow := calculateSMA (slice_init prices) (slowMA (paramsOf bot)) in
    ((num_le prevFast prevSlow /\ num_lt slow fast) <->
     (exists sig, maStrategy bot sym prices = Some sig /\ action sig = BUY)) /\
    ((num_le prevSlow prevFast /\ num_lt fast slow) <->
     (exists sig, maStrategy bot sym prices = Some sig /\ action sig = SELL)) /\
    (forall sig, maStrategy bot sym prices = Some sig ->
       exists p, last prices = Some p /\
         symbol sig = sym /\ confidence sig = 0.7%Q /\
         ((action sig = BUY /\
           stopLoss sig = Some (p * 0.995)%Q /\
           takeProfit sig = Some (p * 1.01)%Q) \/
          (action sig = SELL /\
           stopLoss sig = Some (p * 1.005)%Q /\
           takeProfit sig = Some (p * 0.99)%Q))).
Proof.
  intros bot sym prices Hlen fast slow prevFast prevSlow.
  assert (Hguard : (Z.of_nat (length prices) <? slowMA (paramsOf bot))%Z = false)
    by (apply Z.ltb_ge; exact Hlen).
  unfold maStrategy. rewrite Hguard.
  fold fast slow prevFast prevSlow.
  rewrite <- !nan_leb_le, <- !nan_ltb_lt, <- !andb_true_iff.
  destruct (nan_leb prevFast prevSlow && nan_ltb slow fast) eqn:Ebuy.
  - (* bullish crossover *)
    assert (Hsell : nan_leb prevSlow prevFast && nan_ltb fast slow = false).
    { apply andb_true_iff in Ebuy as [_ H1]. apply nan_ltb_lt in H1.
      destruct (nan_ltb fast slow) eqn:H2.
      - apply nan_ltb_lt in H2. destruct (num_lt_asym _ _ H1 H2).
      - apply andb_false_r. }
    rewrite Hsell.
    apply andb_true_iff in Ebuy as [_ Hlt].
    apply nan_ltb_lt in Hlt. destruct Hlt as (x & y & _ & Hfast & _).
    destruct (calculateSMA_some _ _ _ Hfast) as (p & Hlast & Hcur).
    split; [|split].
    + split; [|reflexivity]. intros _. eexists. split; reflexivity.
    + split; [discriminate|].
      intros (sig & Hsig & Hact). injection Hsig as <-. discriminate.
    + intros sig Hsig. injection Hsig as <-. exists p.
      rewrite Hcur. simpl. repeat split; try assumption. left. repeat split.
  - destruct (nan_leb prevSlow prevFast && nan_ltb fast slow) eqn:Esell.
    + (* bearish crossover *)
      apply andb_true_iff in Esell as [_ Hlt].
      apply nan_ltb_lt in Hlt. destruct Hlt as (x & y & Hfast & _ & _).
      destruct (calculateSMA_some _ _ _ Hfast) as (p & Hlast & Hcur).
      split; [|split].
      * split; [discriminate|].
        intros (sig & Hsig & Hact). injection Hsig as <-. discriminate.
      * split; [|reflexivity]. intros _. eexists. split; reflexivity.
      * intros sig Hsig. injection Hsig as <-. exists p.
        rewrite Hcur. simpl. repeat split; try assumption. right. repeat split.
    + split; [|split].
      * split; [discriminate|]. intros (sig & Hsig & _). discriminate.
      * split; [discriminate|]. intros (sig & Hsig & _). discriminate.
      * intros sig Hsig. discriminate.
Qed.

Lemma ma_crossover_signal_witness :
  (slowMA (paramsOf Scenarios.startedBot)
   <= Z.of_nat (length Scenarios.crossingPrices))%Z /\
  exists sig,
    maStrategy Scenarios.startedBot "EURUSD" Scenarios.crossingPrices
    = Some sig /\ action sig = BUY.
Proof.
  assert (H : (slowMA (paramsOf Scenarios.startedBot)
               <= Z.of_nat (length Scenarios.crossingPrices))%Z).
  { apply Z.leb_le. vm_compute. reflexivity. }
  split; [exact H|].
  destruct (ma_crossover_signal Scenarios.startedBot "EURUSD"
              Scenarios.crossingPrices H) as [Hbuy _].
  apply Hbuy. split.
  - apply nan_leb_le. vm_compute. reflexivity.
  - apply nan_ltb_lt. vm_compute. reflexivity.
Defined.

End CrossoverFacts.

(** ** The news gate *)

Module NewsFacts.
Import Num Indicators Data Async NewsService Engine Design.

Lemma extractCurrencies_short sym :
  String.length sym < 6 -> extractCurrenciesFromSymbol sym = [].
Proof.
  intros H. unfold extractCurrenciesFromSymbol.
  destruct (6 <=? String.length sym)%nat eqn:E; [|reflexivity].
  apply Nat.leb_le in E. lia.
Qed.

Lemma no_currency_no_match (events : list NewsEvent) :
  existsb (fun event =>
             String.eqb (impact event) "high" && includes [] (currency event))
          events = false.
Proof.
  induction events as [|ev events IH]; [reflexivity|].
  simpl. rewrite andb_false_r. exact IH.
Qed.

Lemma shouldPause_open sym minutes reply bot :
  (exists e, reply = Throw e) \/ String.length sym < 6 ->
  shouldPauseTradingForNews sym minutes reply bot
  = (Ok false, record (Call (GetUpcomingNews (inject_Z minutes / 60)%Q)) bot).
Proof.
  intros [[e ->]|Hshort].
  - reflexivity.
  - unfold shouldPauseTradingForNews, try_catch, bind, await, ret.
    rewrite (extractCurrencies_short _ Hshort).
    destruct reply as [events|e]; [|reflexivity].
    rewrite no_currency_no_match. reflexivity.
Qed.

Lemma snoc_last_kept (h : list Q) (p : Q) :
  last (if (200 <? length (h ++ [p]))%nat then drop 1 (h ++ [p]) else h ++ [p])
  = Some p.
Proof.
  destruct (200 <? length (h ++ [p]))%nat eqn:E; [|apply last_snoc].
  apply Nat.ltb_lt in E. rewrite length_app in E. simpl in E.
  destruct h as [|x h]; [simpl in E; lia|].
  simpl. rewrite drop_0. apply last_snoc.
Qed.

(** What [executeSignal] does, whatever is answered to it: the price
    histories stay as they are, and nothing it emits is a news pause. *)
Lemma executeSignal_announces_no_pause signal io bot :
  priceHistory (exec (executeSignal signal io) bot) = priceHistory bot /\
  exists added,
    log (exec (executeSignal signal io) bot) = log bot ++ added /\
    forall s why, ~ In (Emit (newsPause s why)) added.
Proof.
  unfold exec, executeSignal, try_catch, bind, this, await, emit, update, ret.
  destruct (settings bot) as [s|].
  - destruct (accountInfoReply io), (symbolInfoReply io),
      (sendOrderReply io), (createTradeReply io);
      simpl; (split; [reflexivity|]); rewrite <- ?app_assoc; simpl;
      eexists; (split; [reflexivity|]);
      intros s' why Hin; simpl in Hin; intuition discriminate.
  - simpl. split; [reflexivity|]. exists [].
    split; [rewrite app_nil_r; reflexivity|]. intros s' why [].
Qed.

Lemma actOnSignal_announces_no_pause sym signal now io bot :
  priceHistory (exec (actOnSignal sym signal now io) bot) = priceHistory bot /\
  exists added,
    log (exec (actOnSignal sym signal now io) bot) = log bot ++ added /\
    forall s why, ~ In (Emit (newsPause s why)) added.
Proof.
  assert (Hidle : priceHistory bot = priceHistory bot /\
                  exists added, log bot = log bot ++ added /\
                    forall s why, ~ In (Emit (newsPause s why)) added).
  { split; [reflexivity|]. exists [].
    split; [rewrite app_nil_r; reflexivity|]. intros s why []. }
  unfold exec, actOnSignal, bind, this.
  destruct signal as [sig|]; [|exact Hidle].
  destruct (shouldExecuteSignal bot sym sig now); [|exact Hidle].
  apply executeSignal_announces_no_pause.
Qed.

(** The execution of an admitted signal when every request is
    answered. *)
Lemma executeSignal_goes_through sig io bot s a q r :
  settings bot = Some s ->
  accountInfoReply io = Ok a ->
  symbolInfoReply io = Ok q ->
  sendOrderReply io = Ok r ->
  createTradeReply io = Ok tt ->
  log (exec (executeSignal sig io) bot)
  = log bot ++
    [ Call GetAccountInfo;
      Call (GetSymbolInfo (symbol sig));
      Call (SendOrder
              (orderRequest sig
                 (volume (riskAmount (balance a) (riskPerTrade s))
                    (stopLossDistance (bid q) (stopLoss sig)))));
      Call (CreateTrade (Notions.tradeOf bot sig r));
      Emit (tradeExecuted sig r) ].
Proof.
  intros Hs Ha Hq Hr Ht.
  unfold exec, executeSignal, try_catch, bind, this, await, emit, update, ret.
  rewrite Hs, Ha, Hq, Hr, Ht. simpl. rewrite <- !app_assoc. reflexivity.
Qed.

(** C10. When the query for upcoming news fails, and also when the
    symbol has fewer than 6 characters (it then yields no currency code),
    [shouldPauseTradingForNews] answers [false]; the evaluation of the symbol
    in the trading loop then goes on exactly as it does when the calendar
    holds no event.  What it goes on to do, for a bot that has its settings:
    no news pause is announced; the price of the symbol is asked from the
    gateway right after the calendar; a failure of that request is the
    outcome of the evaluation; an answered price is recorded at the end of
    the symbol's history, the signal is generated from the history so
    extended and handed to the admission check, and a signal that is
    admitted and whose execution is answered throughout is sent to the
    gateway as an order, stored as a trade and announced. *)
Theorem news_gate_fails_open :
  forall (sym : string) (io : SymbolIO) (bot : TradingBot),
    (exists e, upcomingNewsReply io = Throw e) \/ String.length sym < 6 ->
    (forall minutes,
       fst (shouldPauseTradingForNews sym minutes (upcomingNewsReply io) bot)
       = Ok false) /\
    evaluateSymbol sym io bot = evaluateSymbol sym (withNoNews io) bot /\
    (String.length sym < 6 -> extractCurrenciesFromSymbol sym = []) /\
    (forall s, settings bot = Some s ->
       let asked :=
         record (Call (GetSymbolInfo sym))
           (record (Call (GetUpcomingNews
                            (inject_Z (newsAvoidanceMinutes s) / 60)%Q)) bot) in
       (exists rest,
          log (exec (evaluateSymbol sym io) bot) = log asked ++ rest /\
          forall s' why, ~ In (Emit (newsPause s' why)) rest) /\
       (forall e, priceReply io = Throw e ->
          evaluateSymbol sym io bot = (Throw e, asked)) /\
       (forall p, priceReply io = Ok p ->
          let recorded := updatePriceHistory sym (bid p) asked in
          evaluateSymbol sym io bot
          = actOnSignal sym (generateTradingSignal sym recorded)
              (checkedAt io) (executeIO io) recorded /\
          history sym (exec (evaluateSymbol sym io) bot)
          = (let pushed := history sym bot ++ [bid p] in
             if (200 <? length pushed)%nat then drop 1 pushed else pushed) /\
          last (history sym (exec (evaluateSymbol sym io) bot))
          = Some (bid p) /\
          (forall sig a q r,
             generateTradingSignal sym recorded = Some sig ->
             shouldExecuteSignal recorded sym sig (checkedAt io) = true ->
             accountInfoReply (executeIO io) = Ok a ->
             symbolInfoReply (executeIO io) = Ok q ->
             sendOrderReply (executeIO io) = Ok r ->
             createTradeReply (executeIO io) = Ok tt ->
             log (exec (evaluateSymbol sym io) bot)
             = log asked ++
               [ Call GetAccountInfo;
                 Call (GetSymbolInfo (symbol sig));
                 Call (SendOrder
                         (orderRequest sig
                            (volume (riskAmount (balance a) (riskPerTrade s))
                               (stopLossDistance (bid q) (stopLoss sig)))));
                 Call (CreateTrade (Notions.tradeOf bot sig r));
                 Emit (tradeExecuted sig r) ]))).
Proof.
  intros sym io bot H. split; [|split; [|split]].
  - intros minutes. rewrite (shouldPause_open sym minutes _ bot H). reflexivity.
  - unfold evaluateSymbol, bind, this.
    destruct (settings bot) as [s|]; [|reflexivity].
    rewrite (shouldPause_open sym (newsAvoidanceMinutes s) _ bot H).
    reflexivity.
  - apply extractCurrencies_short.
  - intros s Hs asked.
    assert (Hthrow : forall e, priceReply io = Throw e ->
              evaluateSymbol sym io bot = (Throw e, asked)).
    { intros e He. unfold evaluateSymbol, bind, this. rewrite Hs.
      rewrite (shouldPause_open sym (newsAvoidanceMinutes s) _ bot H).
      unfold await. rewrite He. reflexivity. }
    assert (Hok : forall p, priceReply io = Ok p ->
              evaluateSymbol sym io bot
              = actOnSignal sym
                  (generateTradingSignal sym
                     (updatePriceHistory sym (bid p) asked))
                  (checkedAt io) (executeIO io)
                  (updatePriceHistory sym (bid p) asked)).
    { intros p Hp. unfold evaluateSymbol, bind, this. rewrite Hs.
      rewrite (shouldPause_open sym (newsAvoidanceMinutes s) _ bot H).
      unfold await, update. rewrite Hp. reflexivity. }
    split; [|split; [exact Hthrow|]].
    + destruct (priceReply io) as [p|e] eqn:Hp.
      * unfold exec. rewrite (Hok p eq_refl).
        destruct (actOnSignal_announces_no_pause sym
                    (generateTradingSignal sym
                       (updatePriceHistory sym (bid p) asked))
                    (checkedAt io) (executeIO io)
                    (updatePriceHistory sym (bid p) asked))
          as (_ & added & Hlog & Hno).
        exists added. split; [exact Hlog|exact Hno].
      * unfold exec. rewrite (Hthrow e eq_refl). exists [].
        split; [simpl; rewrite app_nil_r; reflexivity|]. intros s' why [].
    + intros p Hp recorded.
      assert (Hhist : history sym (exec (evaluateSymbol sym io) bot)
                      = history sym recorded).
      { unfold exec. rewrite (Hok p Hp). fold recorded.
        destruct (actOnSignal_announces_no_pause sym
                    (generateTradingSignal sym recorded)
                    (checkedAt io) (executeIO io) recorded) as (Hkept & _).
        unfold exec in Hkept. unfold history. rewrite Hkept. reflexivity. }
      assert (Hpushed : history sym recorded
                        = (let pushed := history sym bot ++ [bid p] in
                           if (200 <? length pushed)%nat
                           then drop 1 pushed else pushed)).
      { unfold recorded. rewrite BufferFacts.history_update_same.
        reflexivity. }
      split; [exact (Hok p Hp)|].
      split; [rewrite Hhist; exact Hpushed|].
      split; [rewrite Hhist, Hpushed; apply snoc_last_kept|].
      intros sig a q r Hgen Hadmit Ha Hq Hr Ht.
      unfold exec. rewrite (Hok p Hp). fold recorded. rewrite Hgen.
      unfold actOnSignal, bind, this. rewrite Hadmit.
      apply (executeSignal_goes_through sig (executeIO io) recorded s a q r);
        [exact Hs|exact Ha|exact Hq|exact Hr|exact Ht].
Qed.

Lemma news_gate_fails_open_witness :
  ((exists e, upcomingNewsReply (Scenarios.everythingElseFails 1) = Throw e)
   \/ String.length "EURUSD" < 6) /\
  evaluateSymbol "EURUSD" (Scenarios.everythingElseFails 1) Scenarios.startedBot
  = evaluateSymbol "EURUSD" (withNoNews (Scenarios.everythingElseFails 1))
      Scenarios.startedBot /\
  last (history "EURUSD"
          (exec (evaluateSymbol "EURUSD" (Scenarios.everythingElseFails 1))
             Scenarios.startedBot))
  = Some (bid Scenarios.demoQuote).
Proof.
  assert (H : (exists e, upcomingNewsReply (Scenarios.everythingElseFails 1)
                         = Throw e)
              \/ String.length "EURUSD" < 6).
  { left. exists "calendar unavailable"%string. reflexivity. }
  split; [exact H|].
  destruct (news_gate_fails_open "EURUSD" (Scenarios.everythingElseFails 1)
              Scenarios.startedBot H) as (_ & Hsame & _ & Heffects).
  split; [exact Hsame|].
  destruct (Heffects Scenarios.demoSettings eq_refl) as (_ & _ & Hprice).
  destruct (Hprice Scenarios.demoQuote eq_refl) as (_ & _ & Hlast & _).
  exact Hlast.
Defined.

End NewsFacts.

(** ** The lifecycle *)

Module LifecycleFacts.
Import Num Indicators Data Async NewsService Engine Design.





End LifecycleFacts.

(** ** The relative strength index *)

Module IndicatorFacts.
Import Num Indicators Data Design.

Lemma fold_sum_zero (l : list Q) :
  Forall (fun x => x == 0)%Q l ->
  forall acc, (fold_left (fun a x => a + x) l acc == acc)%Q.
Proof.
  induction 1 as [|x l Hx _ IH]; intros acc; simpl.
  - reflexivity.
  - rewrite IH, Hx. ring.
Qed.

Lemma sum_zero (l : list Q) : Forall (fun x => x == 0)%Q l -> (sum l == 0)%Q.
Proof. intros H. unfold sum. apply fold_sum_zero. exact H. Qed.

Lemma fold_sum_nonneg (l : list Q) :
  Forall (fun x => 0 <= x)%Q l ->
  forall acc, (0 <= acc)%Q -> (0 <= fold_left (fun a x => a + x) l acc)%Q.
Proof.
  induction 1 as [|x l Hx _ IH]; intros acc Hacc; simpl.
  - exact Hacc.
  - apply IH. lra.
Qed.

Lemma gainOf_nonneg (change : Q) : (0 <= gainOf change)%Q.
Proof.
  unfold gainOf. destruct (ltb 0 change) eqn:E; [|lra].
  apply NumFacts.ltb_lt in E. lra.
Qed.

Lemma avgGain_nonneg (prices : list Q) (period : Z) :
  (0 < period)%Z -> (0 <= avgGain prices period)%Q.
Proof.
  intros Hpos. unfold avgGain.
  apply Qle_shift_div_l.
  - change 0%Q with (inject_Z 0). rewrite <- Zlt_Qlt. exact Hpos.
  - rewrite Qmult_0_l. unfold sum. apply fold_sum_nonneg; [|lra].
    assert (Hall : Forall (fun x => 0 <= x)%Q (map gainOf (changes prices))).
    { apply Forall_forall. intros x Hx.
      apply list_elem_of_In, in_map_iff in Hx. destruct Hx as (y & <- & _).
      apply gainOf_nonneg. }
    unfold slice_last. destruct (0 <? period)%Z; apply Forall_drop; exact Hall.
Qed.

Lemma changes_constant (c : Q) (n : nat) :
  changes (repeat c (S n)) = repeat (c - c)%Q n.
Proof.
  induction n as [|n IH]; [reflexivity|].
  change (repeat c (S (S n))) with (c :: repeat c (S n)).
  change (repeat c (S n)) with (c :: repeat c n) at 1.
  change (changes (c :: c :: repeat c n))
    with ((c - c)%Q :: changes (c :: repeat c n)).
  change (c :: repeat c n) with (repeat c (S n)).
  rewrite IH. reflexivity.
Qed.

Lemma lossOf_no_change (c : Q) : lossOf (c - c) = 0%Q.
Proof.
  unfold lossOf. destruct (ltb (c - c) 0) eqn:E; [|reflexivity].
  apply NumFacts.ltb_lt in E. exfalso. lra.
Qed.

Lemma avgLoss_constant (c : Q) (n : nat) (period : Z) :
  (avgLoss (repeat c n) period == 0)%Q.
Proof.
  unfold avgLoss.
  assert (H : (sum (slice_last (map lossOf (changes (repeat c n))) period) == 0)%Q).
  { apply sum_zero. unfold slice_last.
    assert (Hall : Forall (fun x => x == 0)%Q (map lossOf (changes (repeat c n)))).
    { destruct n as [|n]; [constructor|].
      rewrite changes_constant. apply Forall_forall. intros x Hx.
      apply list_elem_of_In, in_map_iff in Hx. destruct Hx as (y & <- & Hy).
      apply repeat_spec in Hy. subst y. rewrite lossOf_no_change. reflexivity. }
    destruct (0 <? period)%Z; apply Forall_drop; exact Hall. }
  rewrite H. unfold Qdiv. ring.
Qed.

(** C4 as stated fails: on a series of fifteen equal prices the average
    loss and the average gain over 14 changes are both zero, and the index
    is 100, not 50. *)
Lemma rsi_of_flat_series_is_100 :
  let prices := repeat 1%Q 15 in
  (14 + 1 <= Z.of_nat (length prices))%Z /\
  (avgLoss prices 14 == 0)%Q /\ (avgGain prices 14 == 0)%Q /\
  calculateRSI prices 14 = 100%Q /\
  ~ (calculateRSI prices 14 == 50)%Q.
Proof.
  repeat split.
  - apply Z.leb_le. reflexivity.
  - intros H. vm_compute in H. discriminate H.
Qed.

(** The guard of [calculateRSI] on the average loss. *)
Lemma calculateRSI_no_loss (prices : list Q) (period : Z) :
  (period + 1 <= Z.of_nat (length prices))%Z ->
  (avgLoss prices period == 0)%Q ->
  calculateRSI prices period = 100%Q.
Proof.
  intros Hlen Hloss. unfold calculateRSI.
  assert (Hguard : (Z.of_nat (length prices) <? period + 1)%Z = false)
    by (apply Z.ltb_ge; exact Hlen).
  rewrite Hguard.
  apply NumFacts.eqb_eq in Hloss. rewrite Hloss. reflexivity.
Qed.

(** C4, amended. On a series of at least [period + 1] prices, for a
    positive period, [calculateRSI] returns 100 whenever the average loss
    over the last [period] changes is zero, whether the average gain is
    positive or zero. *)
Theorem rsi_is_100_without_loss :
  forall (prices : list Q) (period : Z),
    (0 < period)%Z ->
    (period + 1 <= Z.of_nat (length prices))%Z ->
    (avgLoss prices period == 0)%Q ->
    calculateRSI prices period = 100%Q /\
    ((avgGain prices period == 0)%Q \/ (0 < avgGain prices period)%Q).
Proof.
  intros prices period Hpos Hlen Hloss.
  split; [apply calculateRSI_no_loss; assumption|].
  assert (Hgain : (0 <= avgGain prices period)%Q)
    by (apply avgGain_nonneg; exact Hpos).
  destruct (Qlt_le_dec 0 (avgGain prices period)) as [H|H].
  - right. exact H.
  - left. apply Qle_antisym; assumption.
Qed.

Lemma rsi_is_100_without_loss_witness :
  (0 < 3)%Z /\ (3 + 1 <= Z.of_nat (length [1; 2; 3; 4]%Q))%Z /\
  (avgLoss [1; 2; 3; 4]%Q 3 == 0)%Q /\
  calculateRSI [1; 2; 3; 4]%Q 3 = 100%Q /\
  ((avgGain [1; 2; 3; 4]%Q 3 == 0)%Q \/ (0 < avgGain [1; 2; 3; 4]%Q 3)%Q).
Proof.
  assert (H1 : (0 < 3)%Z) by lia.
  assert (H2 : (3 + 1 <= Z.of_nat (length [1; 2; 3; 4]%Q))%Z)
    by (apply Z.leb_le; reflexivity).
  assert (H3 : (avgLoss [1; 2; 3; 4]%Q 3 == 0)%Q) by reflexivity.
  split; [exact H1|]. split; [exact H2|]. split; [exact H3|].
  apply (rsi_is_100_without_loss [1; 2; 3; 4]%Q 3 H1 H2 H3).
Defined.

(** Every flat series that is long enough has index 100. *)
Lemma rsi_of_constant_series (c : Q) (n : nat) (period : Z) :
  (0 < period)%Z -> (period + 1 <= Z.of_nat n)%Z ->
  calculateRSI (repeat c n) period = 100%Q.
Proof.
  intros Hpos Hlen. apply calculateRSI_no_loss.
  - rewrite repeat_length. exact Hlen.
  - apply avgLoss_constant.
Qed.

(** With too few prices the index is the neutral 50. *)
Lemma rsi_of_short_series (prices : list Q) (period : Z) :
  (Z.of_nat (length prices) < period + 1)%Z ->
  calculateRSI prices period = 50%Q.
Proof.
  intros H. unfold calculateRSI. apply Z.ltb_lt in H. rewrite H. reflexivity.
Qed.

End IndicatorFacts.

(** ** Position sizing *)

Module SizingFacts.
Import Num Indicators Data Async NewsService Engine Design.

(** With settings loaded, an account and a quote answered,
    [executeSignal] asks for the account, then for the quote, then submits
    one order whose volume is sized from the balance, the configured risk,
    the bid and the stop-loss of the signal. *)
Lemma executeSignal_submits (signal : TradingSignal) (bot : TradingBot)
    (s : BotSettings) (a : MT5AccountInfo) (q : MT5PriceData)
    (orderReply : Result OrderResult) (tradeReply : Result unit) (t : Z) :
  settings bot = Some s ->
  exists rest,
    log (exec (executeSignal signal
                 {| accountInfoReply := Ok a; symbolInfoReply := Ok q;
                    sendOrderReply := orderReply;
                    createTradeReply := tradeReply; doneAt := t |}) bot)
    = log bot
      ++ [Call GetAccountInfo; Call (GetSymbolInfo (symbol signal));
          Call (SendOrder
                  (orderRequest signal
                     (volume (riskAmount (balance a) (riskPerTrade s))
                        (stopLossDistance (bid q) (stopLoss signal)))))]
      ++ rest.
Proof.
  intros Hs.
  unfold exec, executeSignal, try_catch, bind, this, await, emit, update, ret.
  rewrite Hs. cbn [accountInfoReply symbolInfoReply sendOrderReply
                   createTradeReply doneAt].
  destruct orderReply as [r|e]; [destruct tradeReply as [[]|e]|];
    cbn [snd log record set_lastSignalTime];
    rewrite <- !app_assoc; cbn [app]; eexists; reflexivity.
Qed.

(** C3 as stated fails: with a balance of 100000 and a configured value of
    0.01, the risk amount is 10, not 100000 * 0.01 = 1000. *)
Lemma risk_amount_of_setting_0_01 :
  (riskAmount 100000 0.01 == 10)%Q /\
  ~ (riskAmount 100000 0.01 == 100000 * 0.01)%Q.
Proof.
  split.
  - reflexivity.
  - intros H. vm_compute in H. discriminate H.
Qed.

(** C3, amended. The configured risk per trade is a percentage of the
    balance (1 stands for 1%): for a balance [B] and a configured value [p],
    [executeSignal] computes the risk amount [B * p / 100], and it is this
    amount that it converts into the volume of the order it submits. *)
Theorem risk_amount_is_percentage_of_balance :
  forall (signal : TradingSignal) (bot : TradingBot) (s : BotSettings)
         (a : MT5AccountInfo) (q : MT5PriceData)
         (orderReply : Result OrderResult) (tradeReply : Result unit) (t : Z),
    settings bot = Some s ->
    let risk := riskAmount (balance a) (riskPerTrade s) in
    (risk == balance a * riskPerTrade s / 100)%Q /\
    exists rest,
      log (exec (executeSignal signal
                   {| accountInfoReply := Ok a; symbolInfoReply := Ok q;
                      sendOrderReply := orderReply;
                      createTradeReply := tradeReply; doneAt := t |}) bot)
      = log bot
        ++ [Call GetAccountInfo; Call (GetSymbolInfo (symbol signal));
            Call (SendOrder
                    (orderRequest signal
                       (volume risk
                          (stopLossDistance (bid q) (stopLoss signal)))))]
        ++ rest.
Proof.
  intros signal bot s a q orderReply tradeReply t Hs risk. split.
  - unfold risk, riskAmount. field.
  - apply executeSignal_submits. exact Hs.
Qed.

Lemma risk_amount_is_percentage_of_balance_witness :
  settings Scenarios.startedBot = Some Scenarios.demoSettings /\
  (riskAmount (balance Scenarios.demoAccount)
     (riskPerTrade Scenarios.demoSettings) == 2000000 * 1 / 100)%Q.
Proof.
  assert (H : settings Scenarios.startedBot = Some Scenarios.demoSettings)
    by reflexivity.
  split; [exact H|].
  destruct (risk_amount_is_percentage_of_balance (Scenarios.buySignal 0.6)
              Scenarios.startedBot Scenarios.demoSettings Scenarios.demoAccount
              Scenarios.demoQuote (Ok Scenarios.demoFill) (Ok tt) 0 H)
    as [Hrisk _].
  exact Hrisk.
Defined.

Lemma Math_min_is_Qmin (x y : Q) : (Math_min x y == Qmin x y)%Q.
Proof.
  unfold Math_min. destruct (ltb y x) eqn:E.
  - apply NumFacts.ltb_lt in E. symmetry. apply Q.min_r. apply Qlt_le_weak. exact E.
  - apply NumFacts.ltb_ge in E. symmetry. apply Q.min_l. exact E.
Qed.

Lemma volume_bounds (risk distance : Q) :
  (0 < risk)%Q -> (0 < distance)%Q ->
  (0 < volume risk distance)%Q /\ (volume risk distance <= 1)%Q.
Proof.
  intros Hr Hd. unfold volume. split.
  - assert (Hpos : (0 < risk / (distance * 100000))%Q).
    { apply Qlt_shift_div_l; [|lra].
      apply (Qlt_le_trans _ (distance * 1)); [lra|].
      apply Qmult_le_l; [exact Hd|]. discriminate. }
    unfold Math_min. destruct (ltb 1.0 (risk / (distance * 100000))); lra.
  - pose proof (NumFacts.Math_min_le_r (risk / (distance * 100000)) 1.0) as H.
    lra.
Qed.

(** The volume of a request is a multiple of 0.01 next to the volume it
    was sized from. *)
Lemma request_volume_rounded (signal : TradingSignal) (vol : Q) :
  roundedTo2 vol (req_volume (orderRequest signal vol)).
Proof.
  unfold roundedTo2, orderRequest. cbn [req_volume].
  destruct (NumFacts.Math_round_bounds (vol * 100)) as [Hlo Hhi].
  set (k := inject_Z (Math_round (vol * 100))) in *.
  split; [|split].
  - exists (Math_round (vol * 100)). reflexivity.
  - apply Qlt_shift_div_l; lra.
  - apply Qle_shift_div_r; lra.
Qed.

Lemma request_volume_range (signal : TradingSignal) (vol : Q) :
  (0 < vol)%Q -> (vol <= 1)%Q ->
  (0 <= req_volume (orderRequest signal vol) <= 1)%Q.
Proof.
  intros Hpos Hle. unfold orderRequest. cbn [req_volume].
  destruct (NumFacts.Math_round_bounds (vol * 100)) as [Hlo Hhi].
  assert (H0 : (0 <= Math_round (vol * 100))%Z).
  { apply Z.lt_succ_r. rewrite Zlt_Qlt. unfold Z.succ.
    rewrite inject_Z_plus.
    change (inject_Z 1) with 1%Q. change (inject_Z 0) with 0%Q. lra. }
  assert (H1 : (Math_round (vol * 100) <= 100)%Z).
  { apply Z.lt_succ_r. rewrite Zlt_Qlt.
    change (inject_Z (Z.succ 100)) with 101%Q. lra. }
  rewrite Zle_Qle in H0, H1.
  change (inject_Z 0) with 0%Q in H0. change (inject_Z 100) with 100%Q in H1.
  split.
  - apply Qle_shift_div_l; lra.
  - apply Qle_shift_div_r; lra.
Qed.

(** C8. When the risk amount and the stop distance that [executeSignal]
    computes are positive, the order it submits to the gateway has the
    volume [min(riskAmount / (stopDistance * 100000), 1.0)] rounded to two
    decimal places: a multiple of 0.01, within half a hundredth of that
    minimum, and at most 1.0. *)
Theorem order_volume_capped_and_rounded :
  forall (signal : TradingSignal) (bot : TradingBot) (s : BotSettings)
         (a : MT5AccountInfo) (q : MT5PriceData)
         (orderReply : Result OrderResult) (tradeReply : Result unit) (t : Z),
    settings bot = Some s ->
    let risk := riskAmount (balance a) (riskPerTrade s) in
    let distance := stopLossDistance (bid q) (stopLoss signal) in
    (0 < risk)%Q -> (0 < distance)%Q ->
    exists request rest,
      log (exec (executeSignal signal
                   {| accountInfoReply := Ok a; symbolInfoReply := Ok q;
                      sendOrderReply := orderReply;
                      createTradeReply := tradeReply; doneAt := t |}) bot)
      = log bot
        ++ [Call GetAccountInfo; Call (GetSymbolInfo (symbol signal));
            Call (SendOrder request)]
        ++ rest /\
      roundedTo2 (Qmin (risk / (distance * 100000)) 1) (req_volume request) /\
      (0 <= req_volume request)%Q /\ (req_volume request <= 1)%Q.
Proof.
  intros signal bot s a q orderReply tradeReply t Hs risk distance Hr Hd.
  destruct (executeSignal_submits signal bot s a q orderReply tradeReply t Hs)
    as [rest Hlog].
  fold risk distance in Hlog.
  exists (orderRequest signal (volume risk distance)), rest.
  split; [exact Hlog|].
  destruct (volume_bounds risk distance Hr Hd) as [Hpos Hle].
  pose proof (request_volume_rounded signal (volume risk distance)) as Hround.
  pose proof (request_volume_range signal (volume risk distance) Hpos Hle)
    as [Hge0 Hle1].
  split; [|split; assumption].
  destruct Hround as (Hk & Hlo & Hhi).
  pose proof (Math_min_is_Qmin (risk / (distance * 100000)) 1.0) as Hmin.
  fold (volume risk distance) in Hmin.
  change 1.0%Q with (10 # 10)%Q in Hmin.
  assert (Hone : (Qmin (risk / (distance * 100000)) (10 # 10)
                  == Qmin (risk / (distance * 100000)) 1)%Q).
  { apply Q.min_compat; reflexivity. }
  unfold roundedTo2. split; [exact Hk|]. split; lra.
Qed.

Lemma order_volume_capped_and_rounded_witness :
  settings Scenarios.startedBot = Some Scenarios.demoSettings /\
  (0 < riskAmount (balance Scenarios.demoAccount)
         (riskPerTrade Scenarios.demoSettings))%Q /\
  (0 < stopLossDistance (bid Scenarios.demoQuote)
         (stopLoss (Scenarios.buySignal 0.6)))%Q /\
  exists request rest,
    log (exec (executeSignal (Scenarios.buySignal 0.6)
                 {| accountInfoReply := Ok Scenarios.demoAccount;
                    symbolInfoReply := Ok Scenarios.demoQuote;
                    sendOrderReply := Throw "Order rejected";
                    createTradeReply := Ok tt; doneAt := 0 |})
           Scenarios.startedBot)
    = log Scenarios.startedBot
      ++ [Call GetAccountInfo; Call (GetSymbolInfo "EURUSD");
          Call (SendOrder request)]
      ++ rest /\
    (req_volume request <= 1)%Q.
Proof.
  assert (H : settings Scenarios.startedBot = Some Scenarios.demoSettings)
    by reflexivity.
  assert (Hr : (0 < riskAmount (balance Scenarios.demoAccount)
                      (riskPerTrade Scenarios.demoSettings))%Q)
    by (vm_compute; reflexivity).
  assert (Hd : (0 < stopLossDistance (bid Scenarios.demoQuote)
                      (stopLoss (Scenarios.buySignal 0.6)))%Q)
    by (vm_compute; reflexivity).
  split; [exact H|]. split; [exact Hr|]. split; [exact Hd|].
  destruct (order_volume_capped_and_rounded (Scenarios.buySignal 0.6)
              Scenarios.startedBot Scenarios.demoSettings
              Scenarios.demoAccount Scenarios.demoQuote
              (Throw "Order rejected") (Ok tt) 0 H Hr Hd)
    as (request & rest & Hlog & _ & _ & Hle).
  exists request, rest. split; [exact Hlog | exact Hle].
Defined.

End SizingFacts.

(** ** The trading loop *)

Module LoopFacts.
Import Num Indicators Data Async NewsService Engine Design.

Lemma keeps_refl bot : keeps bot bot.
Proof. split; reflexivity. Qed.


(** [executeSignal] catches whatever fails inside it. *)
Lemma executeSignal_caught signal io bot :
  fst (executeSignal signal io bot) = Ok tt /\
  keeps bot (exec (executeSignal signal io) bot).
Proof.
  unfold exec, executeSignal, try_catch, bind, this, await, emit, update, ret.
  destruct (settings bot) as [s|] eqn:Hs; [|split; [reflexivity|apply keeps_refl]].
  destruct io as [[a|e1] [q|e2] [r|e3] [[]|e4] t]; simpl;
    (split; [reflexivity|]); split; simpl; reflexivity.
Qed.

Lemma actOnSignal_caught sym signal now io bot :
  fst (actOnSignal sym signal now io bot) = Ok tt /\
  keeps bot (exec (actOnSignal sym signal now io) bot).
Proof.
  unfold exec, actOnSignal, bind, this.
  destruct signal as [sig|]; [|split; [reflexivity|apply keeps_refl]].
  destruct (shouldExecuteSignal bot sym sig now).
  - apply executeSignal_caught.
  - split; [reflexivity|apply keeps_refl].
Qed.

Lemma shouldPause_total sym minutes reply bot :
  exists b,
    shouldPauseTradingForNews sym minutes reply bot
    = (Ok b, record (Call (GetUpcomingNews (inject_Z minutes / 60)%Q)) bot).
Proof. destruct reply as [events|e]; eexists; reflexivity. Qed.





(** A rejected order is reported by an [error] event. *)
Lemma executeSignal_reports_rejection signal bot s a q e tradeReply t :
  settings bot = Some s ->
  last (log (exec (executeSignal signal
                     {| accountInfoReply := Ok a; symbolInfoReply := Ok q;
                        sendOrderReply := Throw e;
                        createTradeReply := tradeReply; doneAt := t |}) bot))
  = Some (Emit (errorEvent e)).
Proof.
  intros Hs.
  unfold exec, executeSignal, try_catch, bind, this, await, emit, update, ret.
  rewrite Hs. simpl. apply last_snoc.
Qed.




End LoopFacts.

(** ** The cooldown between signals *)

Module CooldownFacts.
Import Num Indicators Data Async NewsService Engine Design.

(** The time of the last signal of a symbol, as [shouldExecuteSignal]
    reads it. *)
Lemma shouldExecuteSignal_cooldown bot sym signal now :
  (now - default 0%Z (lastSignalTime bot !! sym) < minSignalInterval)%Z ->
  shouldExecuteSignal bot sym signal now = false.
Proof.
  intros H. unfold shouldExecuteSignal.
  apply Z.ltb_lt in H. rewrite H. reflexivity.
Qed.

(** An evaluation either leaves the times of the last signals as they
    are or stores the completion time of its own execution. *)
Lemma evaluate_lastSignalTime ev bot :
  lastSignalTime (evaluate ev bot) = lastSignalTime bot \/
  lastSignalTime (evaluate ev bot)
  = <[symbol (ev_signal ev) := doneAt (ev_io ev)]> (lastSignalTime bot).
Proof.
  unfold evaluate, exec, actOnSignal, bind, this.
  destruct (shouldExecuteSignal bot _ _ _); [|left; reflexivity].
  unfold executeSignal, try_catch, bind, this, await, emit, update, ret.
  destruct (settings bot) as [s|]; [|left; reflexivity].
  destruct (ev_io ev) as [[a|e1] [q|e2] [r|e3] [[]|e4] t]; simpl;
    first [left; reflexivity | right; reflexivity].
Qed.

Lemma evaluate_keeps_settings ev bot :
  settings (evaluate ev bot) = settings bot.
Proof.
  unfold evaluate.
  apply (LoopFacts.actOnSignal_caught (symbol (ev_signal ev))
           (Some (ev_signal ev)) (ev_now ev) (ev_io ev) bot).
Qed.

Lemma evaluateAll_keeps_settings evs :
  forall bot, settings (evaluateAll evs bot) = settings bot.
Proof.
  induction evs as [|ev evs IH]; intros bot; [reflexivity|].
  unfold evaluateAll. simpl. fold (evaluateAll evs).
  rewrite IH. apply evaluate_keeps_settings.
Qed.

Lemma evaluateAll_app evs1 evs2 bot :
  evaluateAll (evs1 ++ evs2) bot = evaluateAll evs2 (evaluateAll evs1 bot).
Proof. unfold evaluateAll. apply fold_left_app. Qed.

(** An admitted signal whose execution goes through stores its
    completion time. *)
Lemma evaluate_goes_through ev bot s :
  settings bot = Some s ->
  shouldExecuteSignal bot (symbol (ev_signal ev)) (ev_signal ev) (ev_now ev)
  = true ->
  goesThrough (ev_io ev) ->
  lastSignalTime (evaluate ev bot) !! symbol (ev_signal ev)
  = Some (doneAt (ev_io ev)).
Proof.
  intros Hs Hadmit ((a & Ha) & (q & Hq) & (r & Hr) & Ht).
  unfold evaluate, exec, actOnSignal, bind, this. rewrite Hadmit.
  unfold executeSignal, try_catch, bind, this, await, emit, update, ret.
  rewrite Hs, Ha, Hq, Hr, Ht. simpl. apply lookup_insert_eq.
Qed.

(** A discarded signal changes nothing: no request is issued. *)
Lemma evaluate_discarded ev bot :
  shouldExecuteSignal bot (symbol (ev_signal ev)) (ev_signal ev) (ev_now ev)
  = false ->
  evaluate ev bot = bot.
Proof.
  intros H. unfold evaluate, exec, actOnSignal, bind, this. rewrite H.
  reflexivity.
Qed.

Lemma readings_app evs1 evs2 :
  readings (evs1 ++ evs2) = readings evs1 ++ readings evs2.
Proof.
  induction evs1 as [|ev evs1 IH]; [reflexivity|].
  simpl. rewrite IH. reflexivity.
Qed.

Lemma nondecreasing_tail t ts : nondecreasing (t :: ts) -> nondecreasing ts.
Proof. destruct ts as [|t' ts]; simpl; [trivial|]. intros [_ H]. exact H. Qed.

Lemma nondecreasing_app_r ts1 ts2 :
  nondecreasing (ts1 ++ ts2) -> nondecreasing ts2.
Proof.
  induction ts1 as [|t ts1 IH]; [trivial|].
  intros H. apply IH. apply (nondecreasing_tail t). exact H.
Qed.

Lemma nondecreasing_head t ts :
  nondecreasing (t :: ts) -> Forall (fun x => t <= x)%Z ts.
Proof.
  revert t. induction ts as [|t' ts IH]; intros t H; [constructor|].
  destruct H as [Hle H]. constructor; [exact Hle|].
  apply (Forall_impl _ _ _ (IH t' H)). intros x Hx. lia.
Qed.

(** Once the time of the last signal of a symbol has reached [t0], it
    stays there or later as long as the clock readings do. *)
Lemma evaluateAll_floor evs :
  forall bot sym t0,
    (t0 <= default 0%Z (lastSignalTime bot !! sym))%Z ->
    Forall (fun t => t0 <= t)%Z (readings evs) ->
    (t0 <= default 0%Z (lastSignalTime (evaluateAll evs bot) !! sym))%Z.
Proof.
  induction evs as [|ev evs IH]; intros bot sym t0 Hlast Hclock; [exact Hlast|].
  unfold evaluateAll. simpl. fold (evaluateAll evs).
  simpl in Hclock. inversion Hclock as [|? ? _ Hrest]; subst.
  inversion Hrest as [|? ? Hdone Hrest']; subst.
  apply IH; [|exact Hrest'].
  destruct (evaluate_lastSignalTime ev bot) as [-> | ->]; [exact Hlast|].
  destruct (decide (symbol (ev_signal ev) = sym)) as [<-|Hne].
  - rewrite lookup_insert_eq. exact Hdone.
  - rewrite lookup_insert_ne by exact Hne. exact Hlast.
Qed.

(** The cooldown runs from the completion of the last execution that went
    through. *)
Lemma cooldown_from_completion bot s before first between later :
  settings bot = Some s ->
  nondecreasing (readings (before ++ first :: between ++ [later])) ->
  symbol (ev_signal later) = symbol (ev_signal first) ->
  shouldExecuteSignal (evaluateAll before bot) (symbol (ev_signal first))
    (ev_signal first) (ev_now first) = true ->
  goesThrough (ev_io first) ->
  (ev_now later - doneAt (ev_io first) < minSignalInterval)%Z ->
  shouldExecuteSignal (evaluateAll (before ++ first :: between) bot)
    (symbol (ev_signal later)) (ev_signal later) (ev_now later) = false.
Proof.
  intros Hs Hclock Hsym Hadmit Hthrough Hsoon.
  apply shouldExecuteSignal_cooldown.
  rewrite evaluateAll_app.
  change (evaluateAll (first :: between) (evaluateAll before bot))
    with (evaluateAll between (evaluate first (evaluateAll before bot))).
  rewrite readings_app in Hclock. apply nondecreasing_app_r in Hclock.
  change (readings (first :: between ++ [later]))
    with (ev_now first :: doneAt (ev_io first) :: readings (between ++ [later]))
    in Hclock.
  apply nondecreasing_tail, nondecreasing_head in Hclock.
  rewrite readings_app in Hclock. apply Forall_app in Hclock as [Hbetween _].
  assert (Hfloor :
    (doneAt (ev_io first)
     <= default 0%Z
          (lastSignalTime
             (evaluateAll between (evaluate first (evaluateAll before bot)))
           !! symbol (ev_signal later)))%Z).
  { apply evaluateAll_floor; [|exact Hbetween].
    rewrite Hsym.
    rewrite (evaluate_goes_through first (evaluateAll before bot) s);
      [simpl; lia| |exact Hadmit|exact Hthrough].
    rewrite evaluateAll_keeps_settings. exact Hs. }
  lia.
Qed.

(** C1 as stated fails: a signal for EURUSD is admitted and its order is
    submitted, the gateway rejects the order, and the signal met ten seconds
    later is admitted too: two orders for EURUSD are submitted within ten
    seconds. *)
Lemma rejected_order_is_resubmitted_within_cooldown :
  let first := {| ev_signal := Scenarios.buySignal 0.6;
                  ev_now := 1700000000000;
                  ev_io := Scenarios.rejectedAt 1700000000250 |} in
  let later := {| ev_signal := Scenarios.buySignal 0.6;
                  ev_now := 1700000010000;
                  ev_io := Scenarios.filledAt 1700000010250 |} in
  let bot1 := evaluate first Scenarios.startedBot in
  shouldExecuteSignal Scenarios.startedBot "EURUSD" (ev_signal first)
    (ev_now first) = true /\
  (ev_now later - ev_now first < minSignalInterval)%Z /\
  shouldExecuteSignal bot1 "EURUSD" (ev_signal later) (ev_now later) = true /\
  length (submittedOrders (evaluate later bot1)) = 2.
Proof. vm_compute. repeat split. Qed.

(** C1, amended. While the clock does not run backwards: once a signal
    for a symbol has passed the admission check and its execution has gone
    through (the order is accepted and the trade stored), every later signal
    for that symbol that is checked less than 5 minutes after that admission
    is discarded, whatever its confidence, and nothing is submitted for
    it. *)
Theorem cooldown_after_executed_signal :
  forall (bot : TradingBot) (s : BotSettings)
         (before : list Evaluation) (first : Evaluation)
         (between : list Evaluation) (later : Evaluation),
    settings bot = Some s ->
    nondecreasing (readings (before ++ first :: between ++ [later])) ->
    symbol (ev_signal later) = symbol (ev_signal first) ->
    shouldExecuteSignal (evaluateAll before bot) (symbol (ev_signal first))
      (ev_signal first) (ev_now first) = true ->
    goesThrough (ev_io first) ->
    (ev_now later - ev_now first < minSignalInterval)%Z ->
    let bot' := evaluateAll (before ++ first :: between) bot in
    shouldExecuteSignal bot' (symbol (ev_signal later)) (ev_signal later)
      (ev_now later) = false /\
    evaluate later bot' = bot'.
Proof.
  intros bot s before first between later Hs Hclock Hsym Hadmit Hthrough Hsoon
         bot'.
  assert (Hdisc : shouldExecuteSignal bot' (symbol (ev_signal later))
                    (ev_signal later) (ev_now later) = false).
  { apply (cooldown_from_completion bot s before first between later);
      try assumption.
    assert (Hle : (ev_now first <= doneAt (ev_io first))%Z).
    { rewrite readings_app in Hclock. apply nondecreasing_app_r in Hclock.
      simpl in Hclock. apply Hclock. }
    lia. }
  split; [exact Hdisc|]. apply evaluate_discarded. exact Hdisc.
Qed.

Lemma cooldown_after_executed_signal_witness :
  let first := {| ev_signal := Scenarios.buySignal 0.6;
                  ev_now := 1700000000000;
                  ev_io := Scenarios.filledAt 1700000000250 |} in
  let later := {| ev_signal := Scenarios.buySignal 1;
                  ev_now := 1700000010000;
                  ev_io := Scenarios.filledAt 1700000010250 |} in
  shouldExecuteSignal Scenarios.startedBot "EURUSD" (ev_signal first)
    (ev_now first) = true /\
  goesThrough (ev_io first) /\
  (ev_now later - ev_now first < minSignalInterval)%Z /\
  shouldExecuteSignal (evaluate first Scenarios.startedBot) "EURUSD"
    (ev_signal later) (ev_now later) = false.
Proof.
  intros first later.
  assert (Hs : settings Scenarios.startedBot = Some Scenarios.demoSettings)
    by reflexivity.
  assert (Hclock : nondecreasing (readings ([] ++ first :: [] ++ [later]))).
  { simpl. repeat split; lia. }
  assert (Hsym : symbol (ev_signal later) = symbol (ev_signal first))
    by reflexivity.
  assert (Hadmit : shouldExecuteSignal (evaluateAll [] Scenarios.startedBot)
                     (symbol (ev_signal first)) (ev_signal first)
                     (ev_now first) = true) by reflexivity.
  assert (Hthrough : goesThrough (ev_io first)).
  { repeat split; eexists; reflexivity. }
  assert (Hsoon : (ev_now later - ev_now first < minSignalInterval)%Z).
  { apply Z.ltb_lt. reflexivity. }
  split; [exact Hadmit|]. split; [exact Hthrough|]. split; [exact Hsoon|].
  destruct (cooldown_after_executed_signal Scenarios.startedBot
              Scenarios.demoSettings [] first [] later
              Hs Hclock Hsym Hadmit Hthrough Hsoon) as [Hdisc _].
  exact Hdisc.
Defined.

End CooldownFacts.

(** ** The indicators and the sizing on small inputs *)

Module Examples.
Import Num Indicators Data Async Engine Design.

Example sma_last_three :
  calculateSMA [1; 2; 3; 4; 5]%Q 3 = Some (12 / 3)%Q.
Proof. reflexivity. Qed.

Example sma_short_history : calculateSMA [4; 6]%Q 10 = Some (10 / 2)%Q.
Proof. reflexivity. Qed.

Example sma_window_zero_is_whole_history :
  calculateSMA [4; 6]%Q 0 = Some (10 / 2)%Q.
Proof. reflexivity. Qed.

Example sma_empty_is_nan : calculateSMA [] 10 = None.
Proof. reflexivity. Qed.

Example rsi_rising : calculateRSI [1; 2; 3; 4]%Q 3 = 100%Q.
Proof. reflexivity. Qed.

Example rsi_falling : (calculateRSI [4; 3; 2; 1]%Q 3 == 0)%Q.
Proof. vm_compute. reflexivity. Qed.

Example rsi_mixed : (calculateRSI [1; 3; 2; 4]%Q 3 == 80)%Q.
Proof. vm_compute. reflexivity. Qed.

(** The scenario of the design document: 1% of 100000 at risk, price
    1.1000 and no stop-loss on the signal give 1.00 lot. *)
Example sizing_scenario :
  let signal := {| symbol := "EURUSD"; action := BUY; confidence := 0.7;
                   reason := MABullishCrossover;
                   stopLoss := None; takeProfit := None |} in
  (stopLossDistance 1.1 (stopLoss signal) == 0.0055)%Q /\
  (riskAmount 100000 1 == 1000)%Q /\
  (req_volume (orderRequest signal
                 (volume (riskAmount 100000 1)
                    (stopLossDistance 1.1 (stopLoss signal)))) == 1)%Q.
Proof. vm_compute. repeat split. Qed.

Example history_keeps_the_last_200 :
  history "EURUSD"
    (recordAll (map (fun n => ("EURUSD"%string, inject_Z (Z.of_nat n)))
                  (seq 0 203))
       (createTradingBot "default-account"))
  = map (fun n => inject_Z (Z.of_nat n)) (seq 3 200).
Proof. vm_compute. reflexivity. Qed.

End Examples.

(** ** More on the indicators *)

Module IndicatorExtras.
Import Num Indicators Data Design Notions.

Lemma slice_last_positive {A} (arr : list A) (period : Z) :
  (0 < period)%Z ->
  slice_last arr period = drop (length arr - Z.to_nat period) arr.
Proof.
  intros Hpos. unfold slice_last.
  apply Z.ltb_lt in Hpos. rewrite Hpos. f_equal. apply Z.ltb_lt in Hpos. lia.
Qed.

Lemma slice_last_nonempty {A} (arr : list A) (period : Z) :
  (0 < period)%Z -> arr <> [] -> slice_last arr period <> [].
Proof.
  intros Hpos Hne Hnil.
  rewrite slice_last_positive in Hnil by exact Hpos.
  apply (f_equal length) in Hnil. rewrite length_drop in Hnil. simpl in Hnil.
  destruct arr as [|a arr]; [congruence|]. simpl in Hnil. lia.
Qed.

Lemma slice_last_Forall {A} (P : A -> Prop) (arr : list A) (period : Z) :
  Forall P arr -> Forall P (slice_last arr period).
Proof.
  intros H. unfold slice_last. destruct (0 <? period)%Z; apply Forall_drop; exact H.
Qed.

(** X2. The average looks at the last [period] prices only. *)
Theorem sma_ignores_older_prices :
  forall (older window : list Q) (period : Z),
    (0 < period)%Z ->
    Z.of_nat (length window) = period ->
    calculateSMA (older ++ window) period = calculateSMA window period.
Proof.
  intros older window period Hpos Hlen. unfold calculateSMA.
  rewrite !slice_last_positive by exact Hpos.
  rewrite length_app.
  replace (length older + length window - Z.to_nat period) with (length older)
    by lia.
  replace (length window - Z.to_nat period) with 0 by lia.
  rewrite drop_app_length. reflexivity.
Qed.

Lemma sma_ignores_older_prices_witness :
  calculateSMA ([9; 9; 9] ++ [1; 2])%Q 2 = calculateSMA [1; 2]%Q 2.
Proof.
  apply (sma_ignores_older_prices [9; 9; 9]%Q [1; 2]%Q 2).
  - lia.
  - reflexivity.
Defined.

(** With fewer prices than the period the average is that of all of
    them. *)
Theorem sma_of_short_history :
  forall (prices : list Q) (period : Z),
    (Z.of_nat (length prices) <= period)%Z ->
    prices <> [] ->
    calculateSMA prices period
    = Some (sum prices / inject_Z (Z.of_nat (length prices)))%Q.
Proof.
  intros prices period Hlen Hne. unfold calculateSMA.
  assert (Hpos : (0 < period)%Z).
  { destruct prices; [congruence|]. simpl length in Hlen. lia. }
  rewrite slice_last_positive by exact Hpos.
  replace (length prices - Z.to_nat period) with 0 by lia.
  rewrite drop_0. destruct prices; [congruence|reflexivity].
Qed.

Lemma sma_of_short_history_witness :
  calculateSMA [4; 6]%Q 10 = Some (sum [4; 6]%Q / inject_Z (Z.of_nat 2))%Q.
Proof.
  apply (sma_of_short_history [4; 6]%Q 10).
  - simpl. lia.
  - discriminate.
Defined.

Lemma lossOf_nonneg (change : Q) : (0 <= lossOf change)%Q.
Proof.
  unfold lossOf, Math_abs. destruct (ltb change 0); [apply Qabs_nonneg|lra].
Qed.

Lemma avgLoss_nonneg (prices : list Q) (period : Z) :
  (0 < period)%Z -> (0 <= avgLoss prices period)%Q.
Proof.
  intros Hpos. unfold avgLoss.
  apply Qle_shift_div_l.
  - change 0%Q with (inject_Z 0). rewrite <- Zlt_Qlt. exact Hpos.
  - rewrite Qmult_0_l. unfold sum.
    apply IndicatorFacts.fold_sum_nonneg; [|lra].
    apply slice_last_Forall. apply Forall_forall. intros x Hx.
    apply list_elem_of_In, in_map_iff in Hx. destruct Hx as (y & <- & _).
    apply lossOf_nonneg.
Qed.

(** X3. The index is a percentage. *)
Theorem rsi_between_0_and_100 :
  forall (prices : list Q) (period : Z),
    (0 < period)%Z ->
    (0 <= calculateRSI prices period)%Q /\ (calculateRSI prices period <= 100)%Q.
Proof.
  intros prices period Hpos. unfold calculateRSI.
  destruct (Z.of_nat (length prices) <? period + 1)%Z; [split; lra|].
  destruct (eqb (avgLoss prices period) 0) eqn:E; [split; lra|].
  pose proof (avgLoss_nonneg prices period Hpos) as Hl.
  pose proof (IndicatorFacts.avgGain_nonneg prices period Hpos) as Hg.
  assert (Hl' : (0 < avgLoss prices period)%Q).
  { destruct (Qlt_le_dec 0 (avgLoss prices period)) as [H|H]; [exact H|].
    assert (Hz : (avgLoss prices period == 0)%Q) by (apply Qle_antisym; assumption).
    apply NumFacts.eqb_eq in Hz. congruence. }
  cbv zeta.
  set (rs := (avgGain prices period / avgLoss prices period)%Q).
  assert (Hrs : (0 <= rs)%Q).
  { unfold rs. apply Qle_shift_div_l; [exact Hl'|]. lra. }
  assert (Hlo : (0 <= 100 / (1 + rs))%Q) by (apply Qle_shift_div_l; lra).
  assert (Hhi : (100 / (1 + rs) <= 100)%Q) by (apply Qle_shift_div_r; lra).
  split; lra.
Qed.

Lemma rsi_between_0_and_100_witness :
  (0 <= calculateRSI [1; 3; 2; 4]%Q 3)%Q /\
  (calculateRSI [1; 3; 2; 4]%Q 3 <= 100)%Q.
Proof. apply (rsi_between_0_and_100 [1; 3; 2; 4]%Q 3). lia. Defined.

Lemma length_changes (prices : list Q) :
  length (changes prices) = length prices - 1.
Proof.
  induction prices as [|x [|y rest] IH]; [reflexivity|reflexivity|].
  change (changes (x :: y :: rest)) with ((y - x)%Q :: changes (y :: rest)).
  simpl length in *. lia.
Qed.

(** X4. A series that never falls has index 100. *)
Theorem rsi_of_rising_series :
  forall (prices : list Q) (period : Z),
    (0 < period)%Z ->
    (period + 1 <= Z.of_nat (length prices))%Z ->
    neverFalls prices ->
    calculateRSI prices period = 100%Q.
Proof.
  intros prices period Hpos Hlen Hrise.
  apply IndicatorFacts.calculateRSI_no_loss; [exact Hlen|].
  unfold avgLoss.
  assert (H : (sum (slice_last (map lossOf (changes prices)) period) == 0)%Q).
  { apply IndicatorFacts.sum_zero. apply slice_last_Forall.
    apply Forall_forall. intros x Hx.
    apply list_elem_of_In, in_map_iff in Hx. destruct Hx as (c & <- & Hc).
    unfold neverFalls in Hrise. rewrite Forall_forall in Hrise.
    apply list_elem_of_In, Hrise in Hc.
    unfold lossOf. destruct (ltb c 0) eqn:E; [|reflexivity].
    apply NumFacts.ltb_lt in E. exfalso. lra. }
  rewrite H. unfold Qdiv. ring.
Qed.

Lemma rsi_of_rising_series_witness : calculateRSI [1; 2; 2; 5]%Q 3 = 100%Q.
Proof.
  apply (rsi_of_rising_series [1; 2; 2; 5]%Q 3).
  - lia.
  - simpl. lia.
  - repeat constructor; discriminate.
Defined.

Lemma fold_sum_positive (l : list Q) :
  Forall (fun x => 0 < x)%Q l -> l <> [] ->
  forall acc, (0 <= acc)%Q -> (0 < fold_left (fun a x => a + x) l acc)%Q.
Proof.
  induction 1 as [|x l Hx Hall IH]; intros Hne acc Hacc; [congruence|].
  simpl. destruct l as [|y l].
  - simpl. lra.
  - apply IH; [discriminate|lra].
Qed.

(** X5. A series that falls at every step has index 0. *)
Theorem rsi_of_falling_series :
  forall (prices : list Q) (period : Z),
    (0 < period)%Z ->
    (period + 1 <= Z.of_nat (length prices))%Z ->
    alwaysFalls prices ->
    (calculateRSI prices period == 0)%Q.
Proof.
  intros prices period Hpos Hlen Hfall.
  unfold alwaysFalls in Hfall. rewrite Forall_forall in Hfall.
  assert (Hp : (0 < inject_Z period)%Q).
  { change 0%Q with (inject_Z 0). rewrite <- Zlt_Qlt. exact Hpos. }
  assert (Hgain : (avgGain prices period == 0)%Q).
  { unfold avgGain.
    assert (H : (sum (slice_last (map gainOf (changes prices)) period) == 0)%Q).
    { apply IndicatorFacts.sum_zero. apply slice_last_Forall.
      apply Forall_forall. intros x Hx.
      apply list_elem_of_In, in_map_iff in Hx. destruct Hx as (c & <- & Hc).
      apply list_elem_of_In, Hfall in Hc.
      unfold gainOf. destruct (ltb 0 c) eqn:E; [|reflexivity].
      apply NumFacts.ltb_lt in E. exfalso. lra. }
    rewrite H. unfold Qdiv. ring. }
  assert (Hloss : (0 < avgLoss prices period)%Q).
  { unfold avgLoss. apply Qlt_shift_div_l; [exact Hp|]. rewrite Qmult_0_l.
    unfold sum. apply fold_sum_positive; [| |lra].
    - apply slice_last_Forall. apply Forall_forall. intros x Hx.
      apply list_elem_of_In, in_map_iff in Hx. destruct Hx as (c & <- & Hc).
      apply list_elem_of_In, Hfall in Hc.
      unfold lossOf, Math_abs. destruct (ltb c 0) eqn:E.
      + rewrite Qabs_neg by lra. lra.
      + apply NumFacts.ltb_ge in E. exfalso. lra.
    - apply slice_last_nonempty; [exact Hpos|].
      intros Hnil. apply (f_equal length) in Hnil.
      rewrite length_map, length_changes in Hnil. simpl in Hnil. lia. }
  unfold calculateRSI.
  assert (Hguard : (Z.of_nat (length prices) <? period + 1)%Z = false)
    by (apply Z.ltb_ge; exact Hlen).
  rewrite Hguard.
  destruct (eqb (avgLoss prices period) 0) eqn:E.
  - apply NumFacts.eqb_eq in E. exfalso. lra.
  - cbv zeta. rewrite Hgain. field. lra.
Qed.

Lemma rsi_of_falling_series_witness : (calculateRSI [5; 4; 2; 1]%Q 3 == 0)%Q.
Proof.
  apply (rsi_of_falling_series [5; 4; 2; 1]%Q 3).
  - lia.
  - simpl. lia.
  - repeat constructor.
Defined.

Lemma changes_drop (older window : list Q) :
  window <> [] ->
  drop (length older) (changes (older ++ window)) = changes window.
Proof.
  intros Hne. induction older as [|x older IH]; [reflexivity|].
  destruct (older ++ window) as [|y rest] eqn:E.
  - destruct older; [simpl in E; congruence|discriminate].
  - change ((x :: older) ++ window) with (x :: (older ++ window)).
    rewrite E.
    change (changes (x :: y :: rest)) with ((y - x)%Q :: changes (y :: rest)).
    simpl. exact IH.
Qed.

(** X6. The index looks at the last [period + 1] prices only. *)
Theorem rsi_ignores_older_prices :
  forall (older window : list Q) (period : Z),
    (0 < period)%Z ->
    Z.of_nat (length window) = (period + 1)%Z ->
    calculateRSI (older ++ window) period = calculateRSI window period.
Proof.
  intros older window period Hpos Hlen.
  assert (Hne : window <> []) by (intros ->; simpl in Hlen; lia).
  assert (Hslice : forall f : Q -> Q,
            slice_last (map f (changes (older ++ window))) period
            = slice_last (map f (changes window)) period).
  { intros f. rewrite !slice_last_positive by exact Hpos.
    rewrite !length_map, !length_changes, length_app.
    replace (length older + length window - 1 - Z.to_nat period)
      with (length older) by lia.
    replace (length window - 1 - Z.to_nat period) with 0 by lia.
    rewrite drop_0, skipn_map, changes_drop by exact Hne. reflexivity. }
  unfold calculateRSI, avgGain, avgLoss. rewrite !Hslice.
  assert (H1 : (Z.of_nat (length (older ++ window)) <? period + 1)%Z = false).
  { apply Z.ltb_ge. rewrite length_app. lia. }
  assert (H2 : (Z.of_nat (length window) <? period + 1)%Z = false).
  { apply Z.ltb_ge. lia. }
  rewrite H1, H2. reflexivity.
Qed.

Lemma rsi_ignores_older_prices_witness :
  calculateRSI ([9; 1; 7] ++ [1; 3; 2; 4])%Q 3 = calculateRSI [1; 3; 2; 4]%Q 3.
Proof.
  apply (rsi_ignores_older_prices [9; 1; 7]%Q [1; 3; 2; 4]%Q 3).
  - lia.
  - reflexivity.
Defined.

End IndicatorExtras.

(** ** More on the strategies *)

Module StrategyExtras.
Import Num Indicators Data Async Engine Design Notions.

Lemma currentPriceOf_repeat (c : Q) (n : nat) :
  0 < n -> currentPriceOf (repeat c n) = c.
Proof.
  intros Hn. unfold currentPriceOf. destruct n as [|n]; [lia|].
  replace (repeat c (S n)) with (repeat c n ++ [c]).
  - rewrite last_snoc. reflexivity.
  - clear Hn. induction n as [|n IH]; [reflexivity|].
    simpl. simpl in IH. rewrite IH. reflexivity.
Qed.

(** X8. On a flat market the RSI strategy reads the index 100 and sells. *)
Theorem rsi_strategy_sells_on_flat_history :
  forall (bot : TradingBot) (sym : string) (c : Q) (n : nat),
    (0 < rsiPeriod (paramsOf bot))%Z ->
    (rsiPeriod (paramsOf bot) + 1 <= Z.of_nat n)%Z ->
    (rsiOversold (paramsOf bot) <= 100)%Q ->
    (rsiOverbought (paramsOf bot) < 100)%Q ->
    rsiStrategy bot sym (repeat c n)
    = Some {| symbol := sym; action := SELL; confidence := 0.6;
              reason := RSIOverbought 100;
              stopLoss := Some (c * 1.005)%Q;
              takeProfit := Some (c * 0.985)%Q |}.
Proof.
  intros bot sym c n Hpos Hlen Hlow Hhigh. unfold rsiStrategy.
  assert (Hguard : (Z.of_nat (length (repeat c n))
                    <? rsiPeriod (paramsOf bot) + 1)%Z = false).
  { apply Z.ltb_ge. rewrite repeat_length. exact Hlen. }
  rewrite Hguard.
  rewrite (IndicatorFacts.rsi_of_constant_series c n _ Hpos Hlen).
  rewrite currentPriceOf_repeat by lia.
  assert (H1 : ltb 100 (rsiOversold (paramsOf bot)) = false)
    by (apply NumFacts.ltb_ge; exact Hlow).
  assert (H2 : ltb (rsiOverbought (paramsOf bot)) 100 = true)
    by (apply NumFacts.ltb_lt; exact Hhigh).
  rewrite H1, H2. reflexivity.
Qed.

Lemma rsi_strategy_sells_on_flat_history_witness :
  exists sig,
    rsiStrategy Scenarios.startedBot "EURUSD" (repeat 1.08675%Q 50) = Some sig /\
    action sig = SELL.
Proof.
  eexists. split.
  - apply (rsi_strategy_sells_on_flat_history Scenarios.startedBot "EURUSD"
             1.08675%Q 50).
    + reflexivity.
    + apply Z.leb_le. reflexivity.
    + apply Qle_bool_iff. reflexivity.
    + apply NumFacts.ltb_lt. reflexivity.
  - reflexivity.
Defined.

Lemma currentPriceOf_last (prices : list Q) :
  prices <> [] -> last prices = Some (currentPriceOf prices).
Proof.
  intros Hne. unfold currentPriceOf.
  destruct prices as [|p rest] using rev_ind; [congruence|].
  rewrite last_snoc. reflexivity.
Qed.

(** X9. The RSI strategy buys exactly when the index is below the oversold
    threshold, sells exactly when it is not and the index is above the
    overbought threshold; its signals have confidence 0.6 and, with [p]
    the last price, stop-loss and take-profit at [p * 0.995] and
    [p * 1.015] for a BUY, at [p * 1.005] and [p * 0.985] for a SELL. *)
Theorem rsi_threshold_signal :
  forall (bot : TradingBot) (sym : string) (prices : list Q),
    (0 < rsiPeriod (paramsOf bot))%Z ->
    (rsiPeriod (paramsOf bot) + 1 <= Z.of_nat (length prices))%Z ->
    let rsi := calculateRSI prices (rsiPeriod (paramsOf bot)) in
    ((rsi < rsiOversold (paramsOf bot))%Q <->
     (exists sig, rsiStrategy bot sym prices = Some sig /\ action sig = BUY)) /\
    ((rsiOversold (paramsOf bot) <= rsi /\ rsiOverbought (paramsOf bot) < rsi)%Q <->
     (exists sig, rsiStrategy bot sym prices = Some sig /\ action sig = SELL)) /\
    (forall sig, rsiStrategy bot sym prices = Some sig ->
       exists p, last prices = Some p /\
         symbol sig = sym /\ confidence sig = 0.6%Q /\
         ((action sig = BUY /\ reason sig = RSIOversold rsi /\
           stopLoss sig = Some (p * 0.995)%Q /\
           takeProfit sig = Some (p * 1.015)%Q) \/
          (action sig = SELL /\ reason sig = RSIOverbought rsi /\
           stopLoss sig = Some (p * 1.005)%Q /\
           takeProfit sig = Some (p * 0.985)%Q))).
Proof.
  intros bot sym prices Hpos Hlen rsi.
  assert (Hne : prices <> []) by (intros ->; simpl in Hlen; lia).
  pose proof (currentPriceOf_last prices Hne) as Hlast.
  assert (Hguard : (Z.of_nat (length prices)
                    <? rsiPeriod (paramsOf bot) + 1)%Z = false)
    by (apply Z.ltb_ge; exact Hlen).
  unfold rsiStrategy. rewrite Hguard. fold rsi.
  destruct (ltb rsi (rsiOversold (paramsOf bot))) eqn:Ebuy.
  - apply NumFacts.ltb_lt in Ebuy. split; [|split].
    + split; [|intros _; exact Ebuy]. intros _. eexists. split; reflexivity.
    + split; [intros [H _]; lra|].
      intros (sig & Hsig & Hact). injection Hsig as <-. discriminate.
    + intros sig Hsig. injection Hsig as <-. eexists. split; [exact Hlast|].
      simpl. repeat split. left. repeat split.
  - apply NumFacts.ltb_ge in Ebuy.
    destruct (ltb (rsiOverbought (paramsOf bot)) rsi) eqn:Esell.
    + apply NumFacts.ltb_lt in Esell. split; [|split].
      * split; [intros H; lra|].
        intros (sig & Hsig & Hact). injection Hsig as <-. discriminate.
      * split; [|intros _; split; assumption].
        intros _. eexists. split; reflexivity.
      * intros sig Hsig. injection Hsig as <-. eexists. split; [exact Hlast|].
        simpl. repeat split. right. repeat split.
    + apply NumFacts.ltb_ge in Esell. split; [|split].
      * split; [intros H; lra|]. intros (sig & Hsig & _). discriminate.
      * split; [intros [_ H]; lra|]. intros (sig & Hsig & _). discriminate.
      * intros sig Hsig. discriminate.
Qed.

Lemma rsi_threshold_signal_witness :
  exists sig,
    rsiStrategy Scenarios.startedBot "EURUSD"
      (map inject_Z (map Z.of_nat (rev (seq 1 20)))) = Some sig /\
    action sig = BUY.
Proof.
  assert (H1 : (0 < rsiPeriod (paramsOf Scenarios.startedBot))%Z) by reflexivity.
  assert (H2 : (rsiPeriod (paramsOf Scenarios.startedBot) + 1
                <= Z.of_nat (length (map inject_Z
                                       (map Z.of_nat (rev (seq 1 20))))))%Z).
  { apply Z.leb_le. reflexivity. }
  destruct (rsi_threshold_signal Scenarios.startedBot "EURUSD"
              (map inject_Z (map Z.of_nat (rev (seq 1 20)))) H1 H2)
    as [Hbuy _].
  apply Hbuy. apply NumFacts.ltb_lt. vm_compute. reflexivity.
Defined.

Lemma maStrategy_shape bot sym prices sig :
  maStrategy bot sym prices = Some sig ->
  symbol sig = sym /\ confidence sig = 0.7%Q /\
  (action sig = BUY \/ action sig = SELL) /\
  is_Some (stopLoss sig) /\ is_Some (takeProfit sig).
Proof.
  unfold maStrategy.
  destruct (_ <? _)%Z; [discriminate|].
  destruct (_ && _); [|destruct (_ && _); [|discriminate]];
    intros H; injection H as <-; simpl; repeat split; eauto.
Qed.

Lemma rsiStrategy_shape bot sym prices sig :
  rsiStrategy bot sym prices = Some sig ->
  symbol sig = sym /\ confidence sig = 0.6%Q /\
  (action sig = BUY \/ action sig = SELL) /\
  is_Some (stopLoss sig) /\ is_Some (takeProfit sig).
Proof.
  unfold rsiStrategy.
  destruct (_ <? _)%Z; [discriminate|].
  destruct (ltb _ _); [|destruct (ltb _ _); [|discriminate]];
    intros H; injection H as <-; simpl; repeat split; eauto.
Qed.

(** X10. What the generator emits is a BUY or a SELL for the symbol asked,
    with a stop-loss and a take-profit, and with a confidence (0.6 or 0.7)
    that passes the confidence floor: whether it is executed depends on the
    cooldown alone. *)
Theorem generated_signal_passes_confidence_floor :
  forall (bot : TradingBot) (sym : string) (sig : TradingSignal),
    generateTradingSignal sym bot = Some sig ->
    symbol sig = sym /\
    (action sig = BUY \/ action sig = SELL) /\
    (confidence sig = 0.6%Q \/ confidence sig = 0.7%Q) /\
    is_Some (stopLoss sig) /\ is_Some (takeProfit sig) /\
    forall (other : TradingBot) (now : Z),
      shouldExecuteSignal other sym sig now
      = negb (now - lastSignalOf sym other <? minSignalInterval)%Z.
Proof.
  intros bot sym sig Hgen.
  assert (Hshape : symbol sig = sym /\
                   (confidence sig = 0.6%Q \/ confidence sig = 0.7%Q) /\
                   (action sig = BUY \/ action sig = SELL) /\
                   is_Some (stopLoss sig) /\ is_Some (takeProfit sig)).
  { unfold generateTradingSignal in Hgen.
    destruct (priceHistory bot !! sym) as [prices|]; [|discriminate].
    destruct (length prices <? 50)%nat; [discriminate|].
    destruct (String.eqb (strategyOf bot) "ma_crossover");
      [|destruct (String.eqb (strategyOf bot) "rsi_strategy")].
    - destruct (maStrategy_shape _ _ _ _ Hgen) as (? & ? & ? & ? & ?). auto 10.
    - destruct (rsiStrategy_shape _ _ _ _ Hgen) as (? & ? & ? & ? & ?). auto 10.
    - destruct (maStrategy_shape _ _ _ _ Hgen) as (? & ? & ? & ? & ?). auto 10. }
  destruct Hshape as (Hsym & Hconf & Hact & Hsl & Htp).
  repeat split; try assumption.
  intros other now. unfold shouldExecuteSignal, lastSignalOf.
  destruct (now - default 0%Z (lastSignalTime other !! sym) <? minSignalInterval)%Z;
    [reflexivity|].
  destruct Hconf as [-> | ->]; reflexivity.
Qed.

Lemma generated_signal_passes_confidence_floor_witness :
  exists sig,
    generateTradingSignal "EURUSD" botWith50Prices = Some sig /\
    symbol sig = "EURUSD"%string.
Proof.
  destruct (generateTradingSignal "EURUSD" botWith50Prices) as [sig|] eqn:H;
    [|vm_compute in H; discriminate H].
  exists sig. split; [reflexivity|].
  apply (generated_signal_passes_confidence_floor botWith50Prices "EURUSD" sig H).
Defined.

End StrategyExtras.

(** ** More on the news gate *)

Module NewsExtras.
Import Num Indicators Data Async NewsService Engine Design Notions.

Lemma gate_matches (sym : string) (events : list NewsEvent) :
  existsb (fun event =>
             String.eqb (impact event) "high"
             && includes (extractCurrenciesFromSymbol sym) (currency event))
          events = true
  <-> highImpactFor sym events.
Proof.
  rewrite existsb_exists. unfold highImpactFor, extractCurrenciesFromSymbol.
  split.
  - intros (ev & Hin & Hev). exists ev.
    apply andb_true_iff in Hev as [Himp Hcur].
    apply String.eqb_eq in Himp.
    destruct (6 <=? String.length sym)%nat eqn:E; [|discriminate].
    apply Nat.leb_le in E. simpl in Hcur.
    rewrite orb_false_r in Hcur. apply orb_true_iff in Hcur.
    repeat split; try assumption.
    destruct Hcur as [H|H]; apply String.eqb_eq in H; [left|right]; exact H.
  - intros (ev & Hin & Himp & Hlen & Hcur). exists ev. split; [exact Hin|].
    apply andb_true_iff. split; [apply String.eqb_eq; exact Himp|].
    apply Nat.leb_le in Hlen. rewrite Hlen. simpl.
    rewrite orb_false_r. apply orb_true_iff.
    destruct Hcur as [H|H]; [left|right]; apply String.eqb_eq; exact H.
Qed.

(** X11. The gate pauses exactly when the calendar answers and holds a
    high-impact event in the base or in the quote currency of the symbol;
    it never fails. *)
Theorem news_gate_pauses_iff_high_impact_match :
  forall (sym : string) (minutes : Z) (reply : Result (list NewsEvent))
         (bot : TradingBot),
    (fst (shouldPauseTradingForNews sym minutes reply bot) = Ok true <->
     exists events, reply = Ok events /\ highImpactFor sym events) /\
    (fst (shouldPauseTradingForNews sym minutes reply bot) = Ok true \/
     fst (shouldPauseTradingForNews sym minutes reply bot) = Ok false).
Proof.
  intros sym minutes reply bot.
  unfold shouldPauseTradingForNews, try_catch, bind, await, ret.
  destruct reply as [events|e]; simpl.
  - destruct (existsb _ events) eqn:E.
    + split; [|left; reflexivity].
      split; [|reflexivity]. intros _. exists events. split; [reflexivity|].
      apply gate_matches. exact E.
    + split; [|right; reflexivity].
      split; [discriminate|].
      intros (events' & Heq & Hhigh). injection Heq as <-.
      apply gate_matches in Hhigh. congruence.
  - split; [|right; reflexivity].
    split; [discriminate|]. intros (events & Heq & _). discriminate.
Qed.

(** X12. A symbol under a news pause costs one query and one [newsPause]
    event: no price is fetched or recorded for it and no order is
    submitted. *)
Theorem paused_symbol_is_not_traded :
  forall (sym : string) (io : SymbolIO) (bot : TradingBot) (s : BotSettings)
         (events : list NewsEvent),
    settings bot = Some s ->
    upcomingNewsReply io = Ok events ->
    highImpactFor sym events ->
    evaluateSymbol sym io bot
    = (Ok tt,
       record (Emit (newsPause sym "High impact news event approaching"))
         (record (Call (GetUpcomingNews
                          (inject_Z (newsAvoidanceMinutes s) / 60)%Q)) bot)).
Proof.
  intros sym io bot s events Hs Hreply Hhigh.
  apply gate_matches in Hhigh.
  unfold evaluateSymbol, bind, this. rewrite Hs, Hreply.
  unfold shouldPauseTradingForNews, try_catch, bind, await, ret. simpl.
  rewrite Hhigh. reflexivity.
Qed.

Lemma paused_symbol_is_not_traded_witness :
  submittedOrders (exec (evaluateSymbol "EURUSD" (newsAhead 0)) botWith50Prices)
  = [] /\
  quotedSymbols (exec (evaluateSymbol "EURUSD" (newsAhead 0)) botWith50Prices)
  = [].
Proof.
  assert (Hs : settings botWith50Prices = Some Scenarios.demoSettings)
    by reflexivity.
  assert (Hr : upcomingNewsReply (newsAhead 0) = Ok dollarNews) by reflexivity.
  assert (Hh : highImpactFor "EURUSD" dollarNews).
  { exists {| impact := "high"; currency := "USD" |}.
    repeat split; simpl; auto. }
  unfold exec.
  rewrite (paused_symbol_is_not_traded "EURUSD" (newsAhead 0) botWith50Prices
             Scenarios.demoSettings dollarNews Hs Hr Hh).
  split; reflexivity.
Defined.

(** X13. A symbol of six characters or more yields its first three and its
    next three characters; for a symbol of exactly six the two codes make
    up the symbol. *)
Theorem currencies_split_the_symbol :
  forall (sym : string),
    (6 <= String.length sym)%nat ->
    exists base quote,
      extractCurrenciesFromSymbol sym = [base; quote] /\
      String.length base = 3 /\ String.length quote = 3 /\
      (base ++ quote)%string = String.substring 0 6 sym /\
      (String.length sym = 6 -> (base ++ quote)%string = sym).
Proof.
  intros sym Hlen. unfold extractCurrenciesFromSymbol.
  apply Nat.leb_le in Hlen as Hb. rewrite Hb.
  destruct sym as [|a1 [|a2 [|a3 [|a4 [|a5 [|a6 rest]]]]]];
    simpl in Hlen; try lia.
  destruct rest as [|a7 rest]; simpl;
    eexists; eexists; (split; [reflexivity|]);
    (split; [reflexivity|]); (split; [reflexivity|]);
    (split; [reflexivity|]); intros H; simpl in H; first [reflexivity | lia].
Qed.

Lemma currencies_split_the_symbol_witness :
  exists base quote,
    extractCurrenciesFromSymbol "EURUSD" = [base; quote] /\
    (base ++ quote)%string = "EURUSD"%string.
Proof.
  assert (Hlen : (6 <= String.length "EURUSD")%nat) by (simpl; lia).
  destruct (currencies_split_the_symbol "EURUSD" Hlen) as
    (base & quote & Hsplit & Hb & Hq & Happ & Hsix).
  exists base, quote. split; [exact Hsplit|]. apply Hsix. reflexivity.
Defined.

End NewsExtras.

(** ** More on the execution of a signal *)

Module ExecutionExtras.
Import Num Indicators Data Async NewsService Engine Design Notions.

(** X14. When every request is answered, [executeSignal] asks for the
    account and the quote, submits one order, stores one trade record that
    carries the ticket, the volume and the price of the fill (not the volume
    requested), stores the completion time as the time of the last signal of
    the symbol, and emits [tradeExecuted]. *)
Theorem executed_signal_is_recorded :
  forall (signal : TradingSignal) (bot : TradingBot) (s : BotSettings)
         (a : MT5AccountInfo) (q : MT5PriceData) (r : OrderResult) (t : Z),
    settings bot = Some s ->
    let bot' := exec (executeSignal signal
                        {| accountInfoReply := Ok a; symbolInfoReply := Ok q;
                           sendOrderReply := Ok r; createTradeReply := Ok tt;
                           doneAt := t |}) bot in
    log bot'
    = log bot
      ++ [Call GetAccountInfo; Call (GetSymbolInfo (symbol signal));
          Call (SendOrder
                  (orderRequest signal
                     (volume (riskAmount (balance a) (riskPerTrade s))
                        (stopLossDistance (bid q) (stopLoss signal)))));
          Call (CreateTrade (tradeOf bot signal r));
          Emit (tradeExecuted signal r)] /\
    lastSignalTime bot' = <[symbol signal := t]> (lastSignalTime bot) /\
    priceHistory bot' = priceHistory bot.
Proof.
  intros signal bot s a q r t Hs bot'. unfold bot'.
  unfold exec, executeSignal, try_catch, bind, this, await, emit, update, ret.
  rewrite Hs. simpl. rewrite <- !app_assoc. repeat split.
Qed.

Lemma executed_signal_is_recorded_witness :
  lastSignalTime
    (exec (executeSignal (Scenarios.buySignal 0.6)
             (Scenarios.filledAt 1700000000250)) Scenarios.startedBot)
  !! "EURUSD"%string = Some 1700000000250%Z.
Proof.
  assert (Hs : settings Scenarios.startedBot = Some Scenarios.demoSettings)
    by reflexivity.
  destruct (executed_signal_is_recorded (Scenarios.buySignal 0.6)
              Scenarios.startedBot Scenarios.demoSettings
              Scenarios.demoAccount Scenarios.demoQuote Scenarios.demoFill
              1700000000250 Hs) as (_ & Htime & _).
  unfold Scenarios.filledAt. rewrite Htime. apply lookup_insert_eq.
Defined.

(** X15. When a request fails, [executeSignal] stops at the first failure:
    it emits one [error] event with the message of that failure and nothing
    else, and leaves the time of the last signal and the price history as
    they were. *)
Theorem failed_execution_changes_nothing :
  forall (signal : TradingSignal) (io : ExecuteIO) (bot : TradingBot)
         (s : BotSettings) (e : Error),
    settings bot = Some s ->
    firstFailure io = Some e ->
    let bot' := exec (executeSignal signal io) bot in
    lastSignalTime bot' = lastSignalTime bot /\
    priceHistory bot' = priceHistory bot /\
    exists requests,
      log bot' = log bot ++ map Call requests ++ [Emit (errorEvent e)].
Proof.
  intros signal io bot s e Hs Hfail bot'. unfold bot'.
  unfold exec, executeSignal, try_catch, bind, this, await, emit, update, ret.
  rewrite Hs. unfold firstFailure in Hfail.
  destruct io as [[a|e1] [q|e2] [r|e3] [[]|e4] t]; simpl in *;
    try discriminate; injection Hfail as ->;
    (split; [reflexivity|]); (split; [reflexivity|]).
  all: rewrite <- ?app_assoc; cbn [app];
    first [ eexists [_]; reflexivity
          | eexists [_; _]; reflexivity
          | eexists [_; _; _]; reflexivity
          | eexists [_; _; _; _]; reflexivity ].
Qed.

Lemma failed_execution_changes_nothing_witness :
  lastSignalTime
    (exec (executeSignal (Scenarios.buySignal 0.6)
             (Scenarios.rejectedAt 1700000000250)) Scenarios.startedBot)
  = lastSignalTime Scenarios.startedBot.
Proof.
  assert (Hs : settings Scenarios.startedBot = Some Scenarios.demoSettings)
    by reflexivity.
  assert (Hf : firstFailure (Scenarios.rejectedAt 1700000000250)
               = Some "Order rejected"%string) by reflexivity.
  destruct (failed_execution_changes_nothing (Scenarios.buySignal 0.6)
              (Scenarios.rejectedAt 1700000000250) Scenarios.startedBot
              Scenarios.demoSettings "Order rejected"%string Hs Hf)
    as (Htime & _).
  exact Htime.
Defined.

End ExecutionExtras.

(** ** More on the cooldown *)

Module CooldownExtras.
Import Num Indicators Data Async NewsService Engine Design Notions.

(** X16. The cooldown is kept per symbol: what happens to a signal for one
    symbol changes neither the time of the last signal of another symbol nor
    the admission of its signals. *)
Theorem cooldown_is_per_symbol :
  forall (ev : Evaluation) (bot : TradingBot) (other : string),
    other <> symbol (ev_signal ev) ->
    lastSignalTime (evaluate ev bot) !! other = lastSignalTime bot !! other /\
    forall (sig : TradingSignal) (now : Z),
      shouldExecuteSignal (evaluate ev bot) other sig now
      = shouldExecuteSignal bot other sig now.
Proof.
  intros ev bot other Hne.
  assert (H : lastSignalTime (evaluate ev bot) !! other
              = lastSignalTime bot !! other).
  { destruct (CooldownFacts.evaluate_lastSignalTime ev bot) as [-> | ->];
      [reflexivity|].
    apply lookup_insert_ne. congruence. }
  split; [exact H|].
  intros sig now. unfold shouldExecuteSignal. rewrite H. reflexivity.
Qed.

Lemma cooldown_is_per_symbol_witness :
  shouldExecuteSignal
    (evaluate {| ev_signal := Scenarios.buySignal 0.6;
                 ev_now := 1700000000000;
                 ev_io := Scenarios.filledAt 1700000000250 |}
       Scenarios.startedBot)
    "GBPUSD" (Scenarios.buySignal 0.6) 1700000010000
  = true.
Proof.
  assert (Hne : "GBPUSD"%string
                <> symbol (ev_signal
                             {| ev_signal := Scenarios.buySignal 0.6;
                                ev_now := 1700000000000;
                                ev_io := Scenarios.filledAt 1700000000250 |}))
    by discriminate.
  destruct (cooldown_is_per_symbol _ Scenarios.startedBot "GBPUSD" Hne)
    as [_ Hsame].
  rewrite Hsame. reflexivity.
Defined.

Lemma evaluateAll_monotone evs :
  forall bot sym t0,
    nondecreasing (t0 :: readings evs) ->
    (lastSignalOf sym bot <= t0)%Z ->
    (lastSignalOf sym bot <= lastSignalOf sym (evaluateAll evs bot))%Z.
Proof.
  induction evs as [|ev evs IH]; intros bot sym t0 Hclock Hlast; [simpl; lia|].
  change (evaluateAll (ev :: evs) bot) with (evaluateAll evs (evaluate ev bot)).
  simpl in Hclock. destruct Hclock as (H1 & H2 & Hrest).
  assert (Hstep : (lastSignalOf sym bot <= lastSignalOf sym (evaluate ev bot))%Z
                  /\ (lastSignalOf sym (evaluate ev bot) <= doneAt (ev_io ev))%Z).
  { unfold lastSignalOf in *.
    destruct (CooldownFacts.evaluate_lastSignalTime ev bot) as [-> | ->];
      [lia|].
    destruct (decide (symbol (ev_signal ev) = sym)) as [<-|Hne].
    - rewrite lookup_insert_eq. simpl. lia.
    - rewrite lookup_insert_ne by exact Hne. lia. }
  destruct Hstep as [Hup Hbound].
  specialize (IH (evaluate ev bot) sym (doneAt (ev_io ev))).
  assert (Hrest' : nondecreasing (doneAt (ev_io ev) :: readings evs)).
  { destruct (readings evs) as [|t ts] eqn:E; [exact I|exact Hrest]. }
  specialize (IH Hrest' Hbound). lia.
Qed.

(** X17. While the clock does not run backwards, the time of the last signal
    of a symbol never decreases. *)
Theorem last_signal_time_never_decreases :
  forall (evs : list Evaluation) (bot : TradingBot) (sym : string) (t0 : Z),
    nondecreasing (t0 :: readings evs) ->
    (lastSignalOf sym bot <= t0)%Z ->
    (lastSignalOf sym bot <= lastSignalOf sym (evaluateAll evs bot))%Z.
Proof. intros evs bot sym t0. apply evaluateAll_monotone. Qed.

Lemma last_signal_time_never_decreases_witness :
  (lastSignalOf "EURUSD" Scenarios.startedBot
   <= lastSignalOf "EURUSD"
        (evaluateAll
           [ {| ev_signal := Scenarios.buySignal 0.6;
                ev_now := 1700000000000;
                ev_io := Scenarios.filledAt 1700000000250 |} ]
           Scenarios.startedBot))%Z.
Proof.
  apply (last_signal_time_never_decreases _ Scenarios.startedBot "EURUSD"
           1700000000000).
  - simpl. repeat split; lia.
  - apply Z.leb_le. reflexivity.
Defined.

End CooldownExtras.

(** ** More on the lifecycle and on the tick *)

Module TickExtras.
Import Num Indicators Data Async NewsService Engine Design Notions.

(** X18. [start] succeeds exactly when the settings of the account are found
    and the gateway is connected; it then holds the settings, runs, has its
    timer armed and has announced [running], and it has touched neither the
    price history nor the times of the last signals.  Otherwise it does not
    succeed and the running flag is what it was. *)
Theorem start_outcome :
  forall (io : StartIO) (bot : TradingBot),
    match botSettingsReply io, connectionStatus io with
    | Ok (Some s), true =>
        fst (start io bot) = Ok true /\
        settings (exec (start io) bot) = Some s /\
        isRunning (exec (start io) bot) = true /\
        updateInterval (exec (start io) bot) = true /\
        priceHistory (exec (start io) bot) = priceHistory bot /\
        lastSignalTime (exec (start io) bot) = lastSignalTime bot /\
        log (exec (start io) bot)
        = log bot ++ [Call (GetBotSettings (accountId bot));
                      Call GetConnectionStatus;
                      Emit (statusChanged "running")]
    | _, _ =>
        fst (start io bot) <> Ok true /\
        isRunning (exec (start io) bot) = isRunning bot /\
        updateInterval (exec (start io) bot) = updateInterval bot
    end.
Proof.
  intros [[[s|]|e] [|]] bot;
    unfold exec, start, try_catch, bind, this, await, emit, update, throw, ret;
    simpl; repeat split; try discriminate.
  rewrite <- !app_assoc. reflexivity.
Qed.

(** X19. [stop] always succeeds and leaves a bot that reports [stopped], has
    no timer, and whose tick does nothing; it keeps the settings, the price
    history and the times of the last signals.  A second [stop] only emits
    [stopped] once more. *)
Theorem stop_outcome :
  forall (bot : TradingBot) (io : nat -> SymbolIO),
    let stopped := exec stop bot in
    fst (stop bot) = Ok tt /\
    getStatus stopped = "stopped"%string /\
    updateInterval stopped = false /\
    settings stopped = settings bot /\
    priceHistory stopped = priceHistory bot /\
    lastSignalTime stopped = lastSignalTime bot /\
    log stopped = log bot ++ [Emit (statusChanged "stopped")] /\
    runTradingLoop io stopped = (Ok tt, stopped) /\
    exec stop stopped = record (Emit (statusChanged "stopped")) stopped.
Proof. intros bot io. repeat split. Qed.

Lemma history_record symbol o bot :
  history symbol (record o bot) = history symbol bot.
Proof. reflexivity. Qed.

Lemma executeSignal_priceHistory signal io bot :
  priceHistory (exec (executeSignal signal io) bot) = priceHistory bot.
Proof.
  unfold exec, executeSignal, try_catch, bind, this, await, emit, update, ret.
  destruct (settings bot) as [s|]; [|reflexivity].
  destruct io as [[a|e1] [q|e2] [r|e3] [[]|e4] t]; reflexivity.
Qed.

Lemma actOnSignal_priceHistory sym signal now io bot :
  priceHistory (exec (actOnSignal sym signal now io) bot) = priceHistory bot.
Proof.
  unfold exec, actOnSignal, bind, this.
  destruct signal as [sig|]; [|reflexivity].
  destruct (shouldExecuteSignal bot sym sig now); [|reflexivity].
  apply executeSignal_priceHistory.
Qed.

Lemma updatePriceHistory_capped sym price bot :
  capped bot -> capped (updatePriceHistory sym price bot).
Proof.
  intros Hcap other.
  destruct (decide (sym = other)) as [<-|Hne].
  - rewrite BufferFacts.history_update_same. cbv zeta.
    rewrite BufferFacts.push_evict by apply Hcap.
    apply BufferFacts.length_lastN.
  - rewrite BufferFacts.history_update_other by exact Hne. apply Hcap.
Qed.

Lemma capped_same_history bot bot' :
  priceHistory bot' = priceHistory bot -> capped bot -> capped bot'.
Proof. intros H Hcap sym. unfold history. rewrite H. apply Hcap. Qed.

Lemma evaluateSymbol_capped sym io bot :
  capped bot -> capped (exec (evaluateSymbol sym io) bot).
Proof.
  intros Hcap. unfold exec, evaluateSymbol, bind, this.
  destruct (settings bot) as [s|]; [|exact Hcap].
  destruct (LoopFacts.shouldPause_total sym (newsAvoidanceMinutes s)
              (upcomingNewsReply io) bot) as [b ->].
  destruct b; [exact Hcap|].
  unfold await, update. destruct (priceReply io) as [p|e]; [|exact Hcap].
  eapply capped_same_history; [apply actOnSignal_priceHistory|].
  apply updatePriceHistory_capped. exact Hcap.
Qed.

Lemma forEachSymbol_capped symbols :
  forall i io bot, capped bot -> capped (exec (forEachSymbol i symbols io) bot).
Proof.
  induction symbols as [|sym rest IH]; intros i io bot Hcap; [exact Hcap|].
  unfold exec. simpl. unfold bind.
  pose proof (evaluateSymbol_capped sym (io i) bot Hcap) as H. unfold exec in H.
  destruct (evaluateSymbol sym (io i) bot) as [[[]|e] bot1]; simpl in H.
  - apply IH. exact H.
  - exact H.
Qed.

Lemma runTradingLoop_capped io bot :
  capped bot -> capped (exec (runTradingLoop io) bot).
Proof.
  intros Hcap. unfold exec, runTradingLoop, bind, this, try_catch.
  destruct (isRunning bot); [|exact Hcap].
  destruct (settings bot) as [s|]; [|exact Hcap].
  pose proof (forEachSymbol_capped (tradingSymbols s) 0 io bot Hcap) as H.
  unfold exec in H.
  destruct (forEachSymbol 0 (tradingSymbols s) io bot) as [[[]|e] bot1];
    exact H.
Qed.

(** X20. Over the whole life of a bot, from its creation through [start] and
    any number of ticks, whatever the collaborators answer, no symbol has
    more than 200 prices in its history. *)
Theorem history_cap_holds_for_life :
  forall (account : string) (io : StartIO) (ticks : list (nat -> SymbolIO)),
    capped (runTicks ticks (exec (start io) (createTradingBot account))).
Proof.
  intros account io ticks.
  assert (H0 : capped (exec (start io) (createTradingBot account))).
  { intros sym. unfold history.
    replace (priceHistory (exec (start io) (createTradingBot account)))
      with (∅ : gmap string (list Q)).
    - rewrite lookup_empty. simpl. lia.
    - unfold exec, start, try_catch, bind, this, await, emit, update, throw, ret.
      destruct io as [[[s|]|e] [|]]; reflexivity. }
  revert H0. generalize (exec (start io) (createTradingBot account)).
  induction ticks as [|tick ticks IH]; intros bot Hcap; [exact Hcap|].
  unfold runTicks. simpl. fold (runTicks ticks).
  apply IH. apply runTradingLoop_capped. exact Hcap.
Qed.

Lemma submittedOrders_record o bot :
  submittedOrders (record o bot) = submittedOrders bot ++ ordersIn [o].
Proof. unfold submittedOrders, ordersIn. simpl log. apply flat_map_app. Qed.

Lemma ordersAdded_refl bot : ordersAdded bot bot [].
Proof. unfold ordersAdded. rewrite app_nil_r. reflexivity. Qed.

Lemma ordersAdded_trans a b c l1 l2 :
  ordersAdded a b l1 -> ordersAdded b c l2 -> ordersAdded a c (l1 ++ l2).
Proof.
  unfold ordersAdded. intros H1 H2. rewrite H2, H1, app_assoc. reflexivity.
Qed.

Lemma ordersAdded_same_log a b l :
  log b = log a -> ordersAdded a a l -> ordersAdded a b l.
Proof. unfold ordersAdded, submittedOrders. intros ->. trivial. Qed.

Lemma executeSignal_orders signal io bot :
  exists added,
    ordersAdded bot (exec (executeSignal signal io) bot) added /\
    length added <= 1 /\
    Forall (fun request => req_symbol request = symbol signal) added.
Proof.
  unfold exec, executeSignal, try_catch, bind, this, await, emit, update, ret.
  destruct (settings bot) as [s|];
    [|exists []; split; [apply ordersAdded_refl|split; [simpl; lia|constructor]]].
  destruct io as [[a|e1] [q|e2] [r|e3] [[]|e4] t];
    unfold ordersAdded, submittedOrders; simpl;
    rewrite ?flat_map_app; simpl; rewrite <- ?app_assoc; simpl;
    eexists; (split; [reflexivity|]);
    (split; [simpl; lia|]); repeat constructor.
Qed.

Lemma generated_symbol sym bot sig :
  generateTradingSignal sym bot = Some sig -> symbol sig = sym.
Proof.
  unfold generateTradingSignal.
  destruct (priceHistory bot !! sym) as [prices|]; [|discriminate].
  destruct (length prices <? 50)%nat; [discriminate|].
  destruct (String.eqb (strategyOf bot) "ma_crossover");
    [|destruct (String.eqb (strategyOf bot) "rsi_strategy")]; intros H.
  - apply (StrategyExtras.maStrategy_shape _ _ _ _ H).
  - apply (StrategyExtras.rsiStrategy_shape _ _ _ _ H).
  - apply (StrategyExtras.maStrategy_shape _ _ _ _ H).
Qed.

Ltac same_orders :=
  unfold submittedOrders, emit, update; simpl;
  rewrite ?flat_map_app; simpl; rewrite ?app_nil_r; reflexivity.

Lemma evaluateSymbol_orders sym io bot :
  exists added,
    ordersAdded bot (exec (evaluateSymbol sym io) bot) added /\
    length added <= 1 /\
    Forall (fun request => req_symbol request = sym) added.
Proof.
  assert (Hnone : forall b, submittedOrders b = submittedOrders bot ->
            exists added, ordersAdded bot b added /\ length added <= 1 /\
              Forall (fun request => req_symbol request = sym) added).
  { intros b Hb. exists []. unfold ordersAdded. rewrite app_nil_r.
    split; [exact Hb|]. split; [simpl; lia|constructor]. }
  unfold exec, evaluateSymbol, bind, this.
  destruct (settings bot) as [s|]; [|apply Hnone; reflexivity].
  destruct (LoopFacts.shouldPause_total sym (newsAvoidanceMinutes s)
              (upcomingNewsReply io) bot) as [b ->].
  destruct b; [apply Hnone; same_orders|].
  unfold await, update. destruct (priceReply io) as [p|e];
    [|apply Hnone; same_orders].
  unfold actOnSignal, bind, this.
  match goal with
  | |- context [generateTradingSignal sym ?b] =>
      assert (Hb : submittedOrders b = submittedOrders bot) by same_orders;
      destruct (generateTradingSignal sym b) as [sig|] eqn:Hgen;
        [|apply Hnone; exact Hb];
      destruct (shouldExecuteSignal b sym sig (checkedAt io));
        [|apply Hnone; exact Hb];
      destruct (executeSignal_orders sig (executeIO io) b)
        as (added & Hadd & Hlen & Hsym)
  end.
  exists added. rewrite (generated_symbol _ _ _ Hgen) in Hsym.
  split; [|split; assumption].
  unfold ordersAdded in *. unfold exec in Hadd. rewrite Hadd, Hb. reflexivity.
Qed.

Lemma forEachSymbol_orders symbols :
  forall i io bot,
    exists added,
      ordersAdded bot (exec (forEachSymbol i symbols io) bot) added /\
      length added <= length symbols /\
      Forall (fun request => In (req_symbol request) symbols) added.
Proof.
  induction symbols as [|sym rest IH]; intros i io bot.
  - exists []. split; [apply ordersAdded_refl|]. split; [simpl; lia|constructor].
  - destruct (evaluateSymbol_orders sym (io i) bot) as (a1 & H1 & Hl1 & Hs1).
    unfold exec in *. simpl. unfold bind.
    destruct (evaluateSymbol sym (io i) bot) as [[[]|e] bot1]; simpl in *.
    + destruct (IH (S i) io bot1) as (a2 & H2 & Hl2 & Hs2).
      exists (a1 ++ a2). split; [eapply ordersAdded_trans; eassumption|].
      split; [rewrite length_app; lia|].
      apply Forall_app. split.
      * apply (Forall_impl _ _ _ Hs1). intros r ->. left. reflexivity.
      * apply (Forall_impl _ _ _ Hs2). intros r Hr. right. exact Hr.
    + exists a1. split; [exact H1|]. split; [lia|].
      apply (Forall_impl _ _ _ Hs1). intros r ->. left. reflexivity.
Qed.

Lemma ordersFor_app sym a b :
  ordersFor sym (a ++ b) = ordersFor sym a + ordersFor sym b.
Proof. unfold ordersFor. rewrite List.filter_app, length_app. reflexivity. Qed.

Lemma ordersFor_one_symbol sym other added :
  length added <= 1 ->
  Forall (fun request => req_symbol request = other) added ->
  ordersFor sym added <= timesListed sym [other].
Proof.
  intros Hlen Hsym. destruct added as [|request [|]]; simpl in Hlen; try lia.
  - unfold ordersFor. simpl. lia.
  - apply Forall_cons in Hsym as [Hr _].
    unfold ordersFor, timesListed. simpl. rewrite Hr.
    destruct (String.eqb sym other); simpl; lia.
Qed.

Lemma forEachSymbol_orders_for symbols :
  forall i io bot,
    exists added,
      ordersAdded bot (exec (forEachSymbol i symbols io) bot) added /\
      forall sym, ordersFor sym added <= timesListed sym symbols.
Proof.
  induction symbols as [|first rest IH]; intros i io bot.
  - exists []. split; [apply ordersAdded_refl|]. intros sym. reflexivity.
  - destruct (evaluateSymbol_orders first (io i) bot) as (a1 & H1 & Hl1 & Hs1).
    pose proof (fun sym => ordersFor_one_symbol sym first a1 Hl1 Hs1) as Hfirst.
    assert (Hcons : forall sym,
              timesListed sym (first :: rest)
              = timesListed sym [first] + timesListed sym rest).
    { intros sym. unfold timesListed. simpl.
      destruct (String.eqb sym first); reflexivity. }
    unfold exec in *. simpl. unfold bind.
    destruct (evaluateSymbol first (io i) bot) as [[[]|e] bot1]; simpl in *.
    + destruct (IH (S i) io bot1) as (a2 & H2 & Hrest).
      exists (a1 ++ a2). split; [eapply ordersAdded_trans; eassumption|].
      intros sym. rewrite ordersFor_app, Hcons.
      specialize (Hfirst sym). specialize (Hrest sym). lia.
    + exists a1. split; [exact H1|].
      intros sym. rewrite Hcons. specialize (Hfirst sym). lia.
Qed.

(** X21. For every symbol, the orders that one tick submits for it are
    no more than the times the symbol stands in the list of the settings:
    at most one order for a symbol listed once, none for a symbol that is
    not listed.  Hence a tick submits no more orders than it has symbols,
    each of them for a listed symbol. *)
Theorem tick_submits_at_most_one_order_per_symbol :
  forall (io : nat -> SymbolIO) (bot : TradingBot),
    exists added,
      ordersAdded bot (exec (runTradingLoop io) bot) added /\
      (forall sym,
         ordersFor sym added <= timesListed sym (configuredSymbols bot)) /\
      length added <= length (configuredSymbols bot) /\
      Forall (fun request => In (req_symbol request) (configuredSymbols bot))
        added.
Proof.
  intros io bot.
  assert (Hsame : forall added1 added2,
            submittedOrders bot ++ added1 = submittedOrders bot ++ added2 ->
            added1 = added2).
  { intros added1 added2. apply app_inv_head. }
  assert (Hnone : exists added,
            ordersAdded bot bot added /\
            (forall sym,
               ordersFor sym added <= timesListed sym (configuredSymbols bot)) /\
            length added <= length (configuredSymbols bot) /\
            Forall (fun request =>
                      In (req_symbol request) (configuredSymbols bot)) added).
  { exists []. split; [apply ordersAdded_refl|].
    split; [intros sym; unfold ordersFor; simpl; lia|].
    split; [simpl; lia|constructor]. }
  unfold configuredSymbols in *.
  unfold exec, runTradingLoop, bind, this, try_catch.
  destruct (isRunning bot); [|exact Hnone].
  destruct (settings bot) as [s|]; [|exact Hnone].
  destruct (forEachSymbol_orders (tradingSymbols s) 0 io bot)
    as (added & Hadd & Hlen & Hsym).
  destruct (forEachSymbol_orders_for (tradingSymbols s) 0 io bot)
    as (added' & Hadd' & Hfor).
  assert (added' = added) as ->.
  { apply Hsame. unfold ordersAdded in Hadd, Hadd'.
    rewrite <- Hadd, <- Hadd'. reflexivity. }
  exists added. split; [|split; [exact Hfor|split; assumption]].
  unfold exec in Hadd.
  destruct (forEachSymbol 0 (tradingSymbols s) io bot) as [[[]|e] bot1];
    simpl in *; [exact Hadd|].
  unfold ordersAdded in *. unfold emit, update. simpl.
  rewrite submittedOrders_record, Hadd. simpl. rewrite app_nil_r. reflexivity.
Qed.

End TickExtras.

(** ** The bot routes *)

Module RouteExtras.
Import Num Indicators Data Async NewsService Engine Design Notions Routes.

Lemma sameIdentity_refl bot : sameIdentity bot bot.
Proof. repeat split. Qed.

Lemma sameIdentity_trans a b c :
  sameIdentity a b -> sameIdentity b c -> sameIdentity a c.
Proof.
  intros (H1 & H2 & H3 & H4) (H5 & H6 & H7 & H8). repeat split; congruence.
Qed.

Lemma executeSignal_identity signal io bot :
  sameIdentity bot (exec (executeSignal signal io) bot).
Proof.
  unfold exec, executeSignal, try_catch, bind, this, await, emit, update, ret.
  destruct (settings bot) as [s|] eqn:Hs; [|apply sameIdentity_refl].
  destruct io as [[a|e1] [q|e2] [r|e3] [[]|e4] t]; repeat split.
Qed.

Lemma actOnSignal_identity sym signal now io bot :
  sameIdentity bot (exec (actOnSignal sym signal now io) bot).
Proof.
  unfold exec, actOnSignal, bind, this.
  destruct signal as [sig|]; [|apply sameIdentity_refl].
  destruct (shouldExecuteSignal bot sym sig now);
    [apply executeSignal_identity|apply sameIdentity_refl].
Qed.

Lemma evaluateSymbol_identity sym io bot :
  sameIdentity bot (exec (evaluateSymbol sym io) bot).
Proof.
  unfold exec, evaluateSymbol, bind, this.
  destruct (settings bot) as [s|] eqn:Hs; [|apply sameIdentity_refl].
  destruct (LoopFacts.shouldPause_total sym (newsAvoidanceMinutes s)
              (upcomingNewsReply io) bot) as [b ->].
  destruct b; [repeat split|].
  unfold await, update. destruct (priceReply io) as [p|e]; [|repeat split].
  match goal with
  | |- sameIdentity _ (snd (actOnSignal ?y ?g ?n ?x ?b)) =>
      pose proof (actOnSignal_identity y g n x b) as Hk
  end.
  eapply sameIdentity_trans; [|exact Hk]. repeat split.
Qed.

Lemma forEachSymbol_identity symbols :
  forall i io bot, sameIdentity bot (exec (forEachSymbol i symbols io) bot).
Proof.
  induction symbols as [|sym rest IH]; intros i io bot.
  - apply sameIdentity_refl.
  - unfold exec. simpl. unfold bind.
    pose proof (evaluateSymbol_identity sym (io i) bot) as Hk.
    unfold exec in Hk.
    destruct (evaluateSymbol sym (io i) bot) as [[[]|e] bot1]; simpl in Hk.
    + eapply sameIdentity_trans; [exact Hk|]. apply IH.
    + exact Hk.
Qed.

Lemma runTradingLoop_identity io bot :
  sameIdentity bot (exec (runTradingLoop io) bot).
Proof.
  unfold exec, runTradingLoop, bind, this, try_catch.
  destruct (isRunning bot); [|apply sameIdentity_refl].
  destruct (settings bot) as [s|]; [|apply sameIdentity_refl].
  pose proof (forEachSymbol_identity (tradingSymbols s) 0 io bot) as Hk.
  unfold exec in Hk.
  destruct (forEachSymbol 0 (tradingSymbols s) io bot) as [[[]|e] bot1];
    simpl in *; [exact Hk|].
  eapply sameIdentity_trans; [exact Hk|]. repeat split.
Qed.

Lemma registered_identity account bot bot' :
  sameIdentity bot bot' -> registered account bot -> registered account bot'.
Proof.
  intros (H1 & H2 & H3 & H4) (R1 & R2 & R3 & R4).
  unfold registered. rewrite H1, H2, H3, H4. repeat split; assumption.
Qed.

(** What [start] leaves when it answers [true]. *)
Lemma started_is_registered account io bot :
  start io (createTradingBot account) = (Ok true, bot) ->
  registered account bot.
Proof.
  unfold start, try_catch, bind, this, await, emit, update, throw, ret.
  destruct io as [[[s|]|e] [|]]; simpl; intros H; try discriminate.
  injection H as <-. repeat split. eexists. reflexivity.
Qed.

Lemma handle_wellKept incoming srv :
  wellKept srv -> wellKept (handle incoming srv).
Proof.
  intros Hk. destruct incoming as [account io|account|account|account io]; simpl.
  - unfold startRoute.
    destruct (activeBots srv !! account) eqn:E; [exact Hk|].
    destruct (start io (createTradingBot account)) as [[[|]|e] bot] eqn:Hs;
      try exact Hk.
    intros id b. simpl. rewrite lookup_insert.
    destruct (decide (account = id)) as [<-|Hne].
    + intros H. injection H as <-. apply (started_is_registered _ _ _ Hs).
    + apply Hk.
  - unfold stopRoute. destruct (activeBots srv !! account) eqn:E; [|exact Hk].
    intros id b. simpl. rewrite lookup_delete.
    destruct (decide (account = id)); [discriminate|apply Hk].
  - exact Hk.
  - unfold timerFires. destruct (activeBots srv !! account) as [bot|] eqn:E;
      [|exact Hk].
    intros id b. simpl. rewrite lookup_insert.
    destruct (decide (account = id)) as [<-|Hne].
    + intros H. injection H as <-.
      apply (registered_identity _ bot); [apply runTradingLoop_identity|].
      apply Hk. exact E.
    + apply Hk.
Qed.

Lemma serve_wellKept incoming :
  forall srv, wellKept srv -> wellKept (serve incoming srv).
Proof.
  induction incoming as [|i rest IH]; intros srv Hk; [exact Hk|].
  unfold serve. simpl. fold (serve rest). apply IH, handle_wellKept, Hk.
Qed.

(** X22. Whatever requests and timer ticks the server has served since it
    came up, every bot of the registry is the running bot of its account,
    with settings and an armed timer; the status route answers [running] for
    a registered account and [stopped] for any other. *)
Theorem registry_holds_running_bots_only :
  forall (incoming : list Incoming) (account : string),
    let srv := serve incoming emptyServer in
    match activeBots srv !! account with
    | Some bot => registered account bot
    | None => True
    end /\
    statusRoute account srv
    = if decide (is_Some (activeBots srv !! account))
      then {| code := 200; body := Status "running" true |}
      else {| code := 200; body := Status "stopped" false |}.
Proof.
  intros incoming account srv.
  assert (Hk : wellKept srv).
  { apply serve_wellKept. intros id b H. simpl in H.
    rewrite lookup_empty in H. discriminate. }
  unfold statusRoute.
  destruct (activeBots srv !! account) as [bot|] eqn:E; (split; [auto|]).
  - destruct (Hk account bot E) as (_ & Hrun & _).
    unfold getStatus. rewrite Hrun.
    destruct (decide (is_Some (Some bot))) as [_|Hn]; [reflexivity|].
    exfalso. apply Hn. eexists. reflexivity.
  - destruct (decide (is_Some (@None TradingBot))) as [[b Hb]|_];
      [discriminate|reflexivity].
Qed.

(** X23. For an account that is not registered: the start route registers a
    running bot and answers 200 exactly when the settings are found and the
    gateway is connected, broadcasting nothing, and a second start is then
    refused with 400 and changes nothing; otherwise it answers 500 and
    leaves the server as it was, so that the start can be tried again. *)
Theorem start_route_outcome :
  forall (account : string) (io : StartIO) (srv : Server),
    activeBots srv !! account = None ->
    match botSettingsReply io, connectionStatus io with
    | Ok (Some s), true =>
        exists bot,
          startRoute account io srv
          = ({| code := 200; body := Success "running" |},
             {| activeBots := <[account := bot]> (activeBots srv);
                broadcasts := broadcasts srv |}) /\
          settings bot = Some s /\ registered account bot /\
          forall again,
            startRoute account again (snd (startRoute account io srv))
            = ({| code := 400; body := Failure "Bot already running" |},
               snd (startRoute account io srv))
    | _, _ =>
        startRoute account io srv
        = ({| code := 500; body := Failure "Failed to start bot" |}, srv)
    end.
Proof.
  intros account io srv Hnone. unfold startRoute. rewrite Hnone.
  destruct io as [[[s|]|e] [|]]; try reflexivity.
  eexists. split; [reflexivity|]. split; [reflexivity|].
  split; [repeat split; eexists; reflexivity|].
  intros again. simpl. rewrite lookup_insert_eq. reflexivity.
Qed.

Lemma start_route_outcome_witness :
  code (fst (startRoute "default-account"
               {| botSettingsReply := Ok None; connectionStatus := true |}
               emptyServer)) = 500%Z.
Proof.
  assert (H : activeBots emptyServer !! "default-account"%string = None)
    by reflexivity.
  pose proof (start_route_outcome "default-account"
                {| botSettingsReply := Ok None; connectionStatus := true |}
                emptyServer H) as Hout.
  simpl in Hout. rewrite Hout. reflexivity.
Defined.

(** X24. For an account that is not registered the stop route answers 400
    and changes nothing.  A stop after a successful start answers 200, takes
    the bot out of the registry, which is then what it was before the start,
    and broadcasts [stopped] for the account twice: once through the
    listener of the bot and once by the route itself. *)
Theorem start_then_stop_restores_registry :
  forall (account : string) (io : StartIO) (srv : Server),
    activeBots srv !! account = None ->
    code (fst (startRoute account io srv)) = 200%Z ->
    stopRoute account srv
    = ({| code := 400; body := Failure "Bot not running" |}, srv) /\
    stopRoute account (snd (startRoute account io srv))
    = ({| code := 200; body := Success "stopped" |},
       {| activeBots := activeBots srv;
          broadcasts := broadcasts srv
                        ++ [BotStatus account "stopped";
                            BotStatus account "stopped"] |}).
Proof.
  intros account io srv Hnone Hcode.
  split; [unfold stopRoute; rewrite Hnone; reflexivity|].
  revert Hcode. unfold startRoute. rewrite Hnone.
  destruct io as [[[s|]|e] [|]]; simpl; try discriminate.
  intros _. unfold stopRoute. simpl. rewrite lookup_insert_eq.
  rewrite delete_insert_id by exact Hnone.
  unfold relayed. simpl. reflexivity.
Qed.

Lemma start_then_stop_restores_registry_witness :
  activeBots
    (snd (stopRoute "default-account"
            (snd (startRoute "default-account"
                    {| botSettingsReply := Ok (Some Scenarios.demoSettings);
                       connectionStatus := true |} emptyServer))))
  = activeBots emptyServer.
Proof.
  assert (Hnone : activeBots emptyServer !! "default-account"%string = None)
    by reflexivity.
  assert (Hcode : code (fst (startRoute "default-account"
                               {| botSettingsReply :=
                                    Ok (Some Scenarios.demoSettings);
                                  connectionStatus := true |} emptyServer))
                  = 200%Z) by reflexivity.
  destruct (start_then_stop_restores_registry "default-account" _ emptyServer
              Hnone Hcode) as [_ Hstop].
  rewrite Hstop. reflexivity.
Defined.

Lemma relayed_stop account bot :
  relayed account bot (exec stop bot) = [BotStatus account "stopped"].
Proof.
  unfold relayed, exec, stop, bind, emit, update. simpl.
  rewrite drop_app_length. reflexivity.
Qed.

(** X25. The stop route answers 400 for an account that is not registered
    and changes nothing; for a registered account it answers 200, takes the
    bot out of the registry and has [stopped] broadcast for the account
    twice: once through the listener of the bot, once by the route
    itself. *)
Theorem stop_route_outcome :
  forall (account : string) (srv : Server),
    match activeBots srv !! account with
    | None =>
        stopRoute account srv
        = ({| code := 400; body := Failure "Bot not running" |}, srv)
    | Some _ =>
        stopRoute account srv
        = ({| code := 200; body := Success "stopped" |},
           {| activeBots := delete account (activeBots srv);
              broadcasts := broadcasts srv
                            ++ [BotStatus account "stopped";
                                BotStatus account "stopped"] |})
    end.
Proof.
  intros account srv. unfold stopRoute.
  destruct (activeBots srv !! account) as [bot|]; [|reflexivity].
  cbv zeta. rewrite relayed_stop. reflexivity.
Qed.

End RouteExtras.

(** ** The mock gateway *)

Module GatewayExtras.
Import Num Data Async MockGateway.

Lemma findIndex_none ticket ps :
  Forall (fun p => pos_ticket p <> ticket) ps -> findIndex ticket ps = None.
Proof.
  induction 1 as [|p ps Hp _ IH]; [reflexivity|].
  simpl. apply String.eqb_neq in Hp. rewrite Hp, IH. reflexivity.
Qed.

Lemma findIndex_first ticket older p newer :
  Forall (fun x => pos_ticket x <> ticket) older ->
  pos_ticket p = ticket ->
  findIndex ticket (older ++ p :: newer) = Some (length older).
Proof.
  intros Hold Hp. induction Hold as [|x older Hx _ IH].
  - simpl. apply String.eqb_eq in Hp. rewrite Hp. reflexivity.
  - simpl. apply String.eqb_neq in Hx. rewrite Hx, IH. reflexivity.
Qed.

Lemma splice1_middle {A} (older newer : list A) (p : A) :
  splice1 (length older) (older ++ p :: newer) = older ++ newer.
Proof.
  unfold splice1. rewrite take_app_length.
  replace (S (length older)) with (length (older ++ [p]))
    by (rewrite length_app; simpl; lia).
  replace (older ++ p :: newer) with ((older ++ [p]) ++ newer)
    by (rewrite <- app_assoc; reflexivity).
  rewrite drop_app_length. reflexivity.
Qed.

Lemma closePosition_first ticket closing st older p newer quote :
  positions st = older ++ p :: newer ->
  Forall (fun x => pos_ticket x <> ticket) older ->
  pos_ticket p = ticket ->
  currentPrices st !! pos_symbol p = Some quote ->
  closePosition ticket closing st
  = (Ok {| close_ticket := closing;
           close_price := match pos_type p with
                          | POSITION_BUY => quote_bid quote
                          | POSITION_SELL => quote_ask quote
                          end;
           close_profit := pos_profit p |},
     set_positions (older ++ newer) st).
Proof.
  intros Hps Hold Hp Hq. unfold closePosition.
  rewrite Hps, (findIndex_first ticket older p newer Hold Hp).
  rewrite list_lookup_middle by reflexivity.
  rewrite Hq, splice1_middle. reflexivity.
Qed.

(** X26. Closing a ticket takes out the oldest position that bears it, and
    that one alone; it is closed at the bid when it is a BUY and at the ask
    when it is a SELL, and the profit returned is the one last computed for
    it. *)
Theorem close_takes_out_the_oldest_with_the_ticket :
  forall (ticket closing : string) (st : MockMT5)
         (older newer : list MT5Position) (p : MT5Position) (quote : Quote),
    positions st = older ++ p :: newer ->
    Forall (fun x => pos_ticket x <> ticket) older ->
    pos_ticket p = ticket ->
    currentPrices st !! pos_symbol p = Some quote ->
    closePosition ticket closing st
    = (Ok {| close_ticket := closing;
             close_price := match pos_type p with
                            | POSITION_BUY => quote_bid quote
                            | POSITION_SELL => quote_ask quote
                            end;
             close_profit := pos_profit p |},
       set_positions (older ++ newer) st).
Proof. intros. eapply closePosition_first; eassumption. Qed.

Lemma close_takes_out_the_oldest_with_the_ticket_witness :
  positions (snd (closePosition "123456789" "1700000000000" demoGateway)) = [].
Proof.
  assert (Hq : currentPrices demoGateway
               !! pos_symbol (demoPosition 1699999000000)
               = Some {| quote_bid := 1.08675; quote_ask := 1.08685;
                         quote_last := 1.08680 |}) by reflexivity.
  assert (Hold : Forall (fun x => pos_ticket x <> "123456789"%string)
                   (@nil MT5Position)) by constructor.
  rewrite (close_takes_out_the_oldest_with_the_ticket "123456789"
             "1700000000000" demoGateway [] []
             (demoPosition 1699999000000) _ eq_refl Hold eq_refl Hq).
  reflexivity.
Defined.

(** Closing a ticket that no position bears fails with [Position not
    found] and changes nothing. *)
Theorem close_of_unknown_ticket_fails :
  forall (ticket closing : string) (st : MockMT5),
    Forall (fun p => pos_ticket p <> ticket) (positions st) ->
    closePosition ticket closing st = (Throw "Position not found", st).
Proof.
  intros ticket closing st H. unfold closePosition.
  rewrite (findIndex_none ticket _ H). reflexivity.
Qed.

Lemma close_of_unknown_ticket_fails_witness :
  closePosition "42" "1700000000000" demoGateway
  = (Throw "Position not found", demoGateway).
Proof.
  apply (close_of_unknown_ticket_fails "42" "1700000000000" demoGateway).
  repeat constructor. discriminate.
Defined.

Lemma set_positions_same st : set_positions (positions st) st = st.
Proof. destruct st. reflexivity. Qed.

(** X27. An order for a symbol of the price table is filled in full, at the
    ask for a BUY and at the bid for a SELL; when its ticket is borne by no
    other position, closing it at once gives the position list back as it
    was, at the other side of the spread and with the profit 0 the position
    was opened with. *)
Theorem order_then_close_restores_positions :
  forall (request : MT5TradeRequest) (ticket closing : string) (now : Z)
         (st : MockMT5) (quote : Quote),
    currentPrices st !! req_symbol request = Some quote ->
    Forall (fun p => pos_ticket p <> ticket) (positions st) ->
    fst (sendOrder request ticket now st)
    = Ok {| ticket := ticket; res_volume := req_volume request;
            res_price := match req_type request with
                         | ORDER_TYPE_BUY => quote_ask quote
                         | ORDER_TYPE_SELL => quote_bid quote
                         end |} /\
    closePosition ticket closing (snd (sendOrder request ticket now st))
    = (Ok {| close_ticket := closing;
             close_price := match req_type request with
                            | ORDER_TYPE_BUY => quote_bid quote
                            | ORDER_TYPE_SELL => quote_ask quote
                            end;
             close_profit := 0 |}, st).
Proof.
  intros request ticket closing now st quote Hq Hfresh.
  unfold sendOrder. rewrite Hq. cbv zeta. split; [reflexivity|].
  cbn [snd].
  erewrite closePosition_first;
    [| reflexivity | exact Hfresh | reflexivity | exact Hq].
  rewrite app_nil_r. cbn [pos_type pos_profit].
  destruct st as [c ps prices]. unfold set_positions. cbn.
  destruct (req_type request); reflexivity.
Qed.

Lemma order_then_close_restores_positions_witness :
  snd (closePosition "1700000000000" "1700000000500"
         (snd (sendOrder demoOrder "1700000000000" 1700000000000 demoGateway)))
  = demoGateway.
Proof.
  assert (Hq : currentPrices demoGateway !! req_symbol demoOrder
               = Some {| quote_bid := 1.08675; quote_ask := 1.08685;
                         quote_last := 1.08680 |}) by reflexivity.
  assert (Hf : Forall (fun p => pos_ticket p <> "1700000000000"%string)
                 (positions demoGateway)).
  { repeat constructor. discriminate. }
  destruct (order_then_close_restores_positions demoOrder "1700000000000"
              "1700000000500" 1700000000000 demoGateway _ Hq Hf) as [_ Hclose].
  rewrite Hclose. reflexivity.
Defined.

(** X28. Valued at unchanged prices, a position that was just opened shows
    the spread as a loss, whichever its direction: its profit is
    [(bid - ask) * volume * 100000]. *)
Theorem fresh_position_costs_the_spread :
  forall (request : MT5TradeRequest) (ticket : string) (now : Z)
         (st : MockMT5) (quote : Quote),
    currentPrices st !! req_symbol request = Some quote ->
    exists p,
      last (fst (getPositions (snd (sendOrder request ticket now st))))
      = Some p /\
      pos_ticket p = ticket /\
      (pos_profit p
       == (quote_bid quote - quote_ask quote) * req_volume request * 100000)%Q.
Proof.
  intros request ticket now st quote Hq.
  unfold sendOrder. rewrite Hq. cbv zeta. cbn [snd].
  unfold getPositions. cbn [fst positions set_positions currentPrices].
  rewrite map_app. cbn [map]. rewrite last_snoc.
  eexists. split; [reflexivity|].
  unfold revalue. cbn [pos_symbol]. rewrite Hq.
  split; [reflexivity|].
  cbn [pos_profit pos_type pos_priceOpen pos_volume].
  destruct (req_type request); ring.
Qed.

Lemma fresh_position_costs_the_spread_witness :
  exists p,
    last (fst (getPositions
                 (snd (sendOrder demoOrder "1700000000000" 1700000000000
                         demoGateway)))) = Some p /\
    (pos_profit p == -10)%Q.
Proof.
  assert (Hq : currentPrices demoGateway !! req_symbol demoOrder
               = Some {| quote_bid := 1.08675; quote_ask := 1.08685;
                         quote_last := 1.08680 |}) by reflexivity.
  destruct (fresh_position_costs_the_spread demoOrder "1700000000000"
              1700000000000 demoGateway _ Hq) as (p & Hlast & _ & Hprofit).
  exists p. split; [exact Hlast|]. rewrite Hprofit. reflexivity.
Defined.

(** X29. The gateway refuses an order exactly for the symbols it gives no
    quote for, and a refused order changes nothing. *)
Theorem order_refused_iff_no_quote :
  forall (request : MT5TradeRequest) (ticket : string) (now : Z)
         (st : MockMT5),
    ((exists e, getSymbolInfo (req_symbol request) st = Throw e) <->
     (exists e, fst (sendOrder request ticket now st) = Throw e)) /\
    ((exists r, fst (sendOrder request ticket now st) = Ok r) \/
     snd (sendOrder request ticket now st) = st).
Proof.
  intros request ticket now st. unfold getSymbolInfo, sendOrder.
  destruct (currentPrices st !! req_symbol request) as [quote|]; cbv zeta.
  - split; [split; intros [e He]; discriminate|].
    left. eexists. reflexivity.
  - split; [split; intros _; eexists; reflexivity|].
    right. reflexivity.
Qed.

End GatewayExtras.

(** ** The news gate over the stored calendar *)

Module NewsStoreExtras.
Import Num Data Async NewsService Engine Design Notions NewsStore.

Lemma timeClip_integer (x : Q) (z : Z) : (x == inject_Z z)%Q -> timeClip x = z.
Proof.
  intros H. unfold timeClip. unfold Qeq in H. simpl in H.
  rewrite Z.mul_1_r in H. rewrite H. apply Z.quot_mul. discriminate.
Qed.

Lemma window_end (now minutes : Z) :
  timeClip (inject_Z now + inject_Z minutes / 60 * 60 * 60 * 1000)%Q
  = (now + minutes * 60000)%Z.
Proof.
  apply timeClip_integer.
  rewrite inject_Z_plus, inject_Z_mult.
  change (inject_Z 60000) with 60000%Q. field.
Qed.

Lemma In_insertByTime row x sorted :
  In x (insertByTime row sorted) <-> x = row \/ In x sorted.
Proof.
  induction sorted as [|first rest IH]; simpl.
  - split; [intros [H|[]]; left; congruence|intros [H|[]]; left; congruence].
  - destruct (eventTime row <? eventTime first)%Z; simpl.
    + split; [intros [H|H]; [left; congruence|right; exact H]
             |intros [H|H]; [left; congruence|right; exact H]].
    + rewrite IH. split.
      * intros [H|[H|H]]; auto.
      * intros [H|[H|H]]; auto.
Qed.

Lemma In_orderByTime x rows : In x (orderByTime rows) <-> In x rows.
Proof.
  induction rows as [|row rows IH]; simpl; [reflexivity|].
  rewrite In_insertByTime, IH. split; intros [H|H]; auto.
Qed.

(** X30. Over the stored calendar, the gate pauses a symbol exactly when the
    table holds a high-impact event, in the base or in the quote currency of
    the symbol, whose time is not before the clock reading and not more than
    the avoidance window after it (both ends included). *)
Theorem news_window_is_the_avoidance_minutes :
  forall (sym : string) (minutes : Z) (table : list NewsRow) (now : Z)
         (bot : TradingBot),
    fst (shouldPauseTradingForNews sym minutes
           (upcomingEvents table now minutes) bot) = Ok true
    <->
    exists row,
      In row table /\
      (now <= eventTime row)%Z /\ (eventTime row <= now + minutes * 60000)%Z /\
      impact (row_event row) = "high"%string /\
      (6 <= String.length sym)%nat /\
      (currency (row_event row) = String.substring 0 3 sym \/
       currency (row_event row) = String.substring 3 3 sym).
Proof.
  intros sym minutes table now bot.
  unfold upcomingEvents, shouldPauseTradingForNews, try_catch, bind, await, ret.
  simpl.
  set (events := map row_event _).
  assert (Hin : forall ev, In ev events <->
            exists row, In row table /\
              (now <= eventTime row)%Z /\
              (eventTime row <= now + minutes * 60000)%Z /\
              row_event row = ev).
  { intros ev. unfold events, getUpcomingNews. cbv zeta.
    rewrite window_end, in_map_iff. split.
    - intros (row & Hev & Hrow).
      apply In_orderByTime, filter_In in Hrow. destruct Hrow as [Hrow Hw].
      unfold inWindow in Hw. apply andb_true_iff in Hw as [H1 H2].
      apply Z.leb_le in H1, H2. exists row. auto.
    - intros (row & Hrow & H1 & H2 & Hev). exists row. split; [exact Hev|].
      apply In_orderByTime, filter_In. split; [exact Hrow|].
      unfold inWindow. apply andb_true_iff. split; apply Z.leb_le; assumption. }
  destruct (existsb _ events) eqn:E.
  - split; [|reflexivity]. intros _.
    apply NewsExtras.gate_matches in E.
    destruct E as (ev & Hev & Himp & Hlen & Hcur).
    apply Hin in Hev. destruct Hev as (row & Hrow & H1 & H2 & <-).
    exists row. auto 10.
  - split; [discriminate|].
    intros (row & Hrow & H1 & H2 & Himp & Hlen & Hcur). exfalso.
    assert (Hhigh : highImpactFor sym events).
    { exists (row_event row). split; [|auto].
      apply Hin. exists row. auto. }
    apply NewsExtras.gate_matches in Hhigh. congruence.
Qed.

End NewsStoreExtras.
